(** * HealthGrid triage core: conversation flow, classifiers and webhook ingestion

    A shallow embedding of the TypeScript sources
      - services/conversationFlowManager.ts  (class ConversationFlowManager)
      - services/webhookHandler.ts           (class WebhookHandler)
      - services/chatService.ts              (isMessageProcessed / markWebhookMessageProcessed)
      - services/sessionManager.ts, services/mysqlService.ts (session rows)
      - services/gupshupService.ts           (parseIncomingMessage, detectLanguage)

    Conventions of the embedding.
      - JavaScript strings are byte strings ([string] of the Standard Library,
        non-ASCII characters in their UTF-8 encoding).  [toLowerCase] lowers the
        ASCII letters A-Z and leaves every other byte alone, which is what
        String.prototype.toLowerCase does on texts whose non-ASCII letters are
        already lower case; on a text with a non-ASCII capital it differs
        (JavaScript lowers the capital).  Statements that depend on how such
        letters are lowered are stated for the texts that pass [plainCase].
      - [undefined] / [null] are [None]; JavaScript truthiness of an optional
        string is [truthy].
      - The database is the one [MySQLService.initializeSchema] creates
        (tables sessions, conversationHistory, ...), and SessionManager is the
        configuration with that database attached.  The statements of
        SessionManager and MySQLService are modelled by their relational
        meaning over the sessions table and do not fail; the width of a
        column is not modelled.  The two statements of ChatService name the
        table conversation_history and the column sessions.phone_number,
        which this schema does not have (it has conversationHistory and
        sessions.phoneNumber): they are rejected by the database.  Every
        collaborator call is also appended to a [trace] so that ordering
        properties can be stated.
      - Rendered message texts are kept symbolic ([MessageText]).  Clock values
        (timestamps) and the metrics counters are left out: nothing reads them
        back. *)

From Stdlib Require Import String Ascii List Bool Arith PeanoNat Lia.
Import ListNotations.
Open Scope string_scope.

(** ** JavaScript strings *)

Module JsString.

Definition isUpper (c : ascii) : bool :=
  (65 <=? nat_of_ascii c)%nat && (nat_of_ascii c <=? 90)%nat.

Definition isLower (c : ascii) : bool :=
  (97 <=? nat_of_ascii c)%nat && (nat_of_ascii c <=? 122)%nat.

Definition isDigit (c : ascii) : bool :=
  (48 <=? nat_of_ascii c)%nat && (nat_of_ascii c <=? 57)%nat.

(** The regular-expression class [\w] (no unicode flag): [A-Za-z0-9_]. *)
Definition isWordChar (c : ascii) : bool :=
  isUpper c || isLower c || isDigit c || (nat_of_ascii c =? 95)%nat.

Definition lowerChar (c : ascii) : ascii :=
  if isUpper c then ascii_of_nat (nat_of_ascii c + 32) else c.

Fixpoint toLowerCase (s : string) : string :=
  match s with
  | EmptyString => EmptyString
  | String c r => String (lowerChar c) (toLowerCase r)
  end.

(** [s.startsWith(p)] *)
Fixpoint startsWith (s p : string) : bool :=
  match p, s with
  | EmptyString, _ => true
  | String _ _, EmptyString => false
  | String a p', String b s' => Ascii.eqb a b && startsWith s' p'
  end.

(** [s.includes(sub)] *)
Fixpoint includes (s sub : string) : bool :=
  match s with
  | EmptyString => startsWith EmptyString sub
  | String _ r => startsWith s sub || includes r sub
  end.

(** [s] with its first [n] characters removed. *)
Fixpoint drop (n : nat) (s : string) : string :=
  match n, s with
  | O, _ => s
  | S _, EmptyString => EmptyString
  | S k, String _ r => drop k r
  end.

Definition head (s : string) : option ascii :=
  match s with
  | EmptyString => None
  | String c _ => Some c
  end.

Fixpoint last (s : string) (d : option ascii) : option ascii :=
  match s with
  | EmptyString => d
  | String c r => last r (Some c)
  end.

(** Truthiness of an optional string: [undefined] and the empty string are falsy. *)
Definition truthy (o : option string) : bool :=
  match o with
  | Some (String _ _) => true
  | _ => false
  end.

(** [a || b] on optional strings. *)
Definition orElse (a b : option string) : option string :=
  if truthy a then a else b.

End JsString.

Import JsString.

(** ** Regular expressions of the shape [/\b(w1|w2|...)\b/gi]

    All patterns of [LANGUAGE_PATTERNS] have this shape: a word boundary, an
    alternation of literal words, a word boundary.  The subject is already
    lower-cased by the caller and the literals are lower case, so the [i] flag
    compares bytes. *)

Module Regex.

Definition isWordOpt (o : option ascii) : bool :=
  match o with
  | Some c => isWordChar c
  | None => false
  end.

(** [\b] between the character before and the character after a position. *)
Definition wordBoundary (before after : option ascii) : bool :=
  xorb (isWordOpt before) (isWordOpt after).

(** The alternation is tried left to right; an alternative is kept only if the
    closing [\b] also holds after it (the engine backtracks into the group). *)
Fixpoint firstAlternative (alts : list string) (prev : option ascii) (s : string)
  : option nat :=
  match alts with
  | [] => None
  | w :: rest =>
      if startsWith s w
         && wordBoundary (last w prev) (head (drop (String.length w) s))
      then Some (String.length w)
      else firstAlternative rest prev s
  end.

(** Length of the match starting exactly at the current position, if any. *)
Definition matchHere (alts : list string) (prev : option ascii) (s : string)
  : option nat :=
  if wordBoundary prev (head s) then firstAlternative alts prev s else None.

(** Number of elements of [s.match(/\b(alts)\b/g)] (0 when it is [null]):
    matches are found left to right and do not overlap; [skip] counts the
    characters of the last match that are still to be stepped over. *)
Fixpoint countFrom (alts : list string) (prev : option ascii) (s : string)
  (skip : nat) : nat :=
  match s with
  | EmptyString => 0
  | String c r =>
      match skip with
      | S k => countFrom alts (Some c) r k
      | O =>
          match matchHere alts prev s with
          | Some len => 1 + countFrom alts (Some c) r (len - 1)
          | None => countFrom alts (Some c) r 0
          end
      end
  end.

Definition matchCount (alts : list string) (s : string) : nat :=
  countFrom alts None s 0.

End Regex.

(** ** Language detection (gupshupService.ts) *)

Module Language.

Definition LANGUAGE_PATTERNS : list (string * list (list string)) :=
  [ ("pidgin",
      [ ["wetin"; "dey"; "no"; "na"; "go"; "fit"; "sabi"; "abi"; "sha"; "oya";
         "make"; "dem"; "una"; "dis"; "dat"];
        ["how far"; "how body"; "i wan"; "e be say"; "no wahala"; "small small"] ]);
    ("yoruba",
      [ ["bawo"; "pele"; "emi"; "iwo"; "wa"; "ni"; "ti"; "se"; "ko"; "fun";
         "ninu"; "lati"; "si"; "ati"];
        ["mo fe"; "mo ni"; "o dara"; "alafia"; "ese"; "tutu"; "gbona"; "inu";
         "ori"; "owo"] ]);
    ("igbo",
      [ ["kedu"; "ndewo"; "m"; "gi"; "ka"; "nke"; "ya"; "ndi"; "unu"; "aha";
         "obi"; "isi"; "aka"];
        ["achoro m"; "o di mma"; "nke oma"; "nnoo"; "daalu"; "aru"; "onya";
         "mmiri"] ]);
    ("hausa",
      [ ["sannu"; "yaya"; "ina"; "ka"; "ki"; "mu"; "su"; "da"; "a"; "ba"; "ko";
         "mai"; "wannan"; "wancan"];
        ["lafiya"; "maraba"; "na gode"; "ina son"; "ba komai"; "jiki"; "kai";
         "hannu"; "kafa"] ]) ].

(** The inner [patterns.forEach]: add the number of matches of every pattern. *)
Definition patternHits (patterns : list (list string)) (lowerText : string) : nat :=
  fold_left (fun acc alts => acc + Regex.matchCount alts lowerText) patterns 0.

(** [Object.entries(scores)] after the scoring loop: the keys keep the order in
    which the literal declares them, which is also the order of
    [LANGUAGE_PATTERNS]. *)
Definition scoreEntries (text : string) : list (string * nat) :=
  let lowerText := toLowerCase text in
  map (fun '(lang, patterns) => (lang, patternHits patterns lowerText))
      LANGUAGE_PATTERNS.

(** [entries.reduce((a, b) => scores[a[0]] > scores[b[0]] ? a : b)] *)
Definition reduceHighest (first : string * nat) (rest : list (string * nat))
  : string * nat :=
  fold_left (fun a b => if (snd b <? snd a)%nat then a else b) rest first.

Definition detectLanguage (text : string) : string :=
  match scoreEntries text with
  | [] => "english"
  | e :: es =>
      let detected := reduceHighest e es in
      if (0 <? snd detected)%nat then fst detected else "english"
  end.

(** What the specification asks for instead: the first entry with the highest
    score wins. *)
Definition reduceHighestFirst (first : string * nat) (rest : list (string * nat))
  : string * nat :=
  fold_left (fun a b => if (snd a <? snd b)%nat then b else a) rest first.

Definition detectLanguageFirstWins (text : string) : string :=
  match scoreEntries text with
  | [] => "english"
  | e :: es =>
      let detected := reduceHighestFirst e es in
      if (0 <? snd detected)%nat then fst detected else "english"
  end.

End Language.

(** ** Data model of the conversation flow *)

Module Model.

(** [this.conversationStates] *)
Inductive ConversationState : Set :=
| INITIAL
| LANGUAGE_SELECTION
| COLLECTING_DEMOGRAPHICS
| COLLECTING_SYMPTOMS
| ASSESSING_SEVERITY
| EMERGENCY_DETECTED
| PROVIDER_MATCHING
| APPOINTMENT_BOOKING
| FOLLOW_UP
| COMPLETED.

Definition ConversationState_eqb (a b : ConversationState) : bool :=
  match a, b with
  | INITIAL, INITIAL
  | LANGUAGE_SELECTION, LANGUAGE_SELECTION
  | COLLECTING_DEMOGRAPHICS, COLLECTING_DEMOGRAPHICS
  | COLLECTING_SYMPTOMS, COLLECTING_SYMPTOMS
  | ASSESSING_SEVERITY, ASSESSING_SEVERITY
  | EMERGENCY_DETECTED, EMERGENCY_DETECTED
  | PROVIDER_MATCHING, PROVIDER_MATCHING
  | APPOINTMENT_BOOKING, APPOINTMENT_BOOKING
  | FOLLOW_UP, FOLLOW_UP
  | COMPLETED, COMPLETED => true
  | _, _ => false
  end.

(** The [userData] bag; only [age] and [gender] are ever written. *)
Record Demographics : Set := {
  age : option nat;
  gender : option string
}.

Definition noDemographics : Demographics := {| age := None; gender := None |}.

(** Object spread [{...base, ...extra}]: keys of [extra] win. *)
Definition spreadDemographics (base extra : Demographics) : Demographics :=
  {| age := match age extra with Some a => Some a | None => age base end;
     gender := match gender extra with Some g => Some g | None => gender base end |}.

Record Symptom : Set := {
  symptomName : string;
  symptomSeverity : string;
  symptomDuration : string
}.

(** Confidences are written in tenths (0.7 is 7). *)
Record Assessment : Set := {
  riskScore : nat;
  severity : string;
  recommendation : string;
  likelyConditions : list (string * nat)
}.

(** The [triageData] bag. *)
Record TriageData : Set := {
  symptoms : option (list Symptom);
  assessed : option Assessment
}.

Definition noTriageData : TriageData := {| symptoms := None; assessed := None |}.

Record Provider : Set := {
  providerId : string;
  providerName : string;
  specialty : string;
  distance : option string;
  location : option string;
  rating : string
}.

(** A row of the [sessions] table, and the object handed to the handlers. *)
Record Session : Set := {
  id : string;
  phoneNumber : string;
  conversationState : option ConversationState;
  preferredLanguage : string;
  userData : Demographics;
  triageData : TriageData
}.

(** The [updates] argument of [updateSession].  [selectedProvider] is passed
    by the flow manager but has no column in [MySQLService.updateSession]. *)
Record Updates : Set := {
  newConversationState : option ConversationState;
  newPreferredLanguage : option string;
  newUserData : option Demographics;
  newTriageData : option TriageData;
  newSelectedProvider : option Provider
}.

Definition noUpdates : Updates :=
  {| newConversationState := None; newPreferredLanguage := None;
     newUserData := None; newTriageData := None; newSelectedProvider := None |}.

(** The message object built by [WebhookHandler.processUserMessage]. *)
Record Message : Set := {
  original : option string;
  msgPhoneNumber : string;
  msgType : option string;
  isButtonReply : bool;
  isListReply : bool;
  buttonId : option string;
  listId : option string
}.

(** Message texts, unrendered. *)
Inductive MessageText : Set :=
| Localized (key language : string)       (* getLocalizedMessage(key, language) *)
| FollowUpQuestion (language : string)    (* generateFollowUpQuestion(_, language) *)
| Literal (text : string)
| Paragraphs (first second : MessageText) (* `${first}\n\n${second}` *)
| ProviderInfo (p : Provider) (language : string).

Record EmergencyCheck : Set := {
  isEmergency : bool;
  keyword : option string;
  confidence : option nat
}.

Record ListRow : Set := {
  rowId : string;
  rowTitle : string;
  rowProvider : Provider
}.

(** What [manageConversation] returns, by its [type] field. *)
Inductive Response : Set :=
| TextResponse (message : MessageText)
| ListResponse (message : MessageText) (buttonText sectionTitle : string)
               (rows : list ListRow)
| ButtonsResponse (message : MessageText) (buttons : list (string * string))
| WelcomeResponse
| EmergencyResponse (data : EmergencyCheck + Assessment)
| TriageResultsResponse (a : Assessment) (providers : list Provider).

Inductive Exception : Set :=
| TypeError (what : string)
| Error (message : string).

(** A row of conversation_history, the table the statements of ChatService
    name. *)
Record ProcessedRow : Set := {
  session_id : string;
  rowContent : option string;
  metadataMessageId : string
}.

(** Calls on the collaborators, in the order they are made. *)
Inductive Event : Set :=
| IsMessageProcessed (messageId phone : string)
| GetOrCreateSession (phone : string)
| CreateSession (s : Session)
| MarkWebhookMessageProcessed (messageId phone sessionId : string)
| ManageConversation (m : Message) (s : Session)
| UpdateSession (sessionId : string) (u : Updates)
| SendResponse (phone : string) (r : Response)
| SendText (phone : string) (text : string)
| AddToHistory (sessionId : string) (r : Response).

Record World : Set := {
  sessions : list Session;
  conversation_history : list ProcessedRow;
  trace : list Event
}.

Definition record (e : Event) (w : World) : World :=
  {| sessions := sessions w;
     conversation_history := conversation_history w;
     trace := trace w ++ [e] |}.

End Model.

Import Model.

(** ** Effects: a state monad over [World] with exceptions

    A thrown exception keeps the world as it was when it was thrown: writes
    made before a [throw] are not rolled back. *)

Module Effect.

Inductive Outcome (A : Type) : Type :=
| Returned (a : A) (w : World)
| Thrown (e : Exception) (w : World).

Arguments Returned {A} a w.
Arguments Thrown {A} e w.

Definition M (A : Type) : Type := World -> Outcome A.

Definition ret {A} (a : A) : M A := fun w => Returned a w.

Definition throw {A} (e : Exception) : M A := fun w => Thrown e w.

Definition bind {A B} (m : M A) (k : A -> M B) : M B :=
  fun w =>
    match m w with
    | Returned a w' => k a w'
    | Thrown e w' => Thrown e w'
    end.

(** [try { m } catch (error) { handler }] *)
Definition tryCatch {A} (m : M A) (handler : Exception -> M A) : M A :=
  fun w =>
    match m w with
    | Returned a w' => Returned a w'
    | Thrown e w' => handler e w'
    end.

Definition modify (f : World -> World) : M unit := fun w => Returned tt (f w).

Definition worldOf {A} (o : Outcome A) : World :=
  match o with
  | Returned _ w => w
  | Thrown _ w => w
  end.

Definition valueOf {A} (o : Outcome A) : option A :=
  match o with
  | Returned a _ => Some a
  | Thrown _ _ => None
  end.

End Effect.

Import Effect.

Declare Scope flow_scope.
Delimit Scope flow_scope with flow.
Notation "x <- m ;; k" := (bind m (fun x => k))
  (at level 61, m at next level, right associativity) : flow_scope.
Notation "m ;; k" := (bind m (fun _ => k))
  (at level 61, right associativity) : flow_scope.

Local Open Scope flow_scope.

(** ** The session store (SessionManager over MySQLService) and the
       deduplication queries of ChatService *)

Module Store.

(** [MySQLService.updateSession]: only the columns present in [updates] are
    set.  The width of a column is not modelled: preferredLanguage is
    VARCHAR(10), and the database refuses or cuts short a longer value,
    depending on its SQL mode. *)
Definition applyUpdates (u : Updates) (s : Session) : Session :=
  {| id := id s;
     phoneNumber := phoneNumber s;
     conversationState :=
       match newConversationState u with
       | Some st => Some st
       | None => conversationState s
       end;
     preferredLanguage :=
       match newPreferredLanguage u with
       | Some l => l
       | None => preferredLanguage s
       end;
     userData :=
       match newUserData u with
       | Some d => d
       | None => userData s
       end;
     triageData :=
       match newTriageData u with
       | Some t => t
       | None => triageData s
       end |}.

(** [UPDATE sessions SET ... WHERE id = ?] *)
Definition updateRows (sessionId : string) (u : Updates) (rows : list Session)
  : list Session :=
  map (fun s => if String.eqb (id s) sessionId then applyUpdates u s else s) rows.

Definition writeSession (sessionId : string) (u : Updates) (w : World) : World :=
  record (UpdateSession sessionId u)
    {| sessions := updateRows sessionId u (sessions w);
       conversation_history := conversation_history w;
       trace := trace w |}.

(** [SessionManager.updateSession] with a database attached. *)
Definition updateSession (sessionId : string) (u : Updates) : M unit :=
  modify (writeSession sessionId u).

(** [SELECT * FROM sessions WHERE id = ?], first row. *)
Definition getSession (sessionId : string) (w : World) : option Session :=
  find (fun s => String.eqb (id s) sessionId) (sessions w).

(** [SELECT * FROM sessions WHERE phoneNumber = ?], first row. *)
Definition getSessionByPhone (phone : string) (w : World) : option Session :=
  find (fun s => String.eqb (phoneNumber s) phone) (sessions w).

Definition newSession (sessionId phone : string) : Session :=
  {| id := sessionId;
     phoneNumber := phone;
     conversationState := Some INITIAL;
     preferredLanguage := "en";
     userData := noDemographics;
     triageData := noTriageData |}.

(** [SessionManager.getOrCreateSession]; [freshId] is the value that
    [generateSessionId()] draws from the clock and the random generator. *)
Definition getOrCreateSession (freshId phone : string) : M Session :=
  fun w =>
    let w1 := record (GetOrCreateSession phone) w in
    match getSessionByPhone phone w1 with
    | Some existing => Returned existing w1
    | None =>
        let s := newSession freshId phone in
        Returned s
          (record (CreateSession s)
             {| sessions := sessions w1 ++ [s];
                conversation_history := conversation_history w1;
                trace := trace w1 |})
    end.

(** The tables [MySQLService.initializeSchema] creates. *)
Definition schemaTables : list string :=
  [ "sessions"; "conversationHistory"; "healthRecords"; "prescriptions";
    "appointments" ].

Definition tableExists (table : string) : bool :=
  existsb (String.eqb table) schemaTables.

(** The error with which [mysqlService.query] rejects a statement on a table
    the database does not have (the server writes the name of the database
    before the table's). *)
Definition noSuchTable (table : string) : Exception :=
  Error ("Table '" ++ table ++ "' doesn't exist").

(** [ChatService.isMessageProcessed]: the statement counts the rows of
    conversation_history joined with sessions on s.phone_number.  The schema
    has no table conversation_history (its history table is
    conversationHistory, and its sessions table has phoneNumber, not
    phone_number), so the query is rejected and the count is never read. *)
Definition isMessageProcessed (messageId phone : string) : M bool :=
  fun w =>
    Thrown (noSuchTable "conversation_history")
           (record (IsMessageProcessed messageId phone) w).

(** [ChatService.markWebhookMessageProcessed]: an INSERT INTO
    conversation_history, rejected for the same reason. *)
Definition markWebhookMessageProcessed (messageId phone sessionId : string)
  (content : option string) : M unit :=
  fun w =>
    Thrown (noSuchTable "conversation_history")
           (record (MarkWebhookMessageProcessed messageId phone sessionId) w).

(** The state a session row holds, if the row exists and the column is set. *)
Definition storedState (sessionId : string) (w : World) : option ConversationState :=
  match getSession sessionId w with
  | Some s => conversationState s
  | None => None
  end.

End Store.

(** ** ConversationFlowManager *)

Module ConversationFlowManager.

Import Store.

Definition emergencyKeywords : list (string * list string) :=
  [ ("en", ["emergency"; "dying"; "can't breathe"; "chest pain"; "unconscious";
            "bleeding"; "heart attack"]);
    ("pcm", ["I dey die"; "kasala"; "wahala big"; "emergency"; "I no fit breathe"]);
    ("yo", ["pajawiri"; "mo ń kú"; "kíákíá"; "ẹmi kò lè mí"]);
    ("ha", ["gaggawa"; "ina mutuwa"; "nan take"; "ba zan iya numfashi ba"]);
    ("ig", ["mberede"; "ana m anwụ"; "ozugbo"; "enweghị m ike iku ume"]) ].

(** Property names every object literal inherits from [Object.prototype];
    indexing with one of them yields a function (or the prototype object),
    which is truthy and not iterable. *)
Definition objectPrototypeKeys : list string :=
  [ "constructor"; "toString"; "toLocaleString"; "valueOf"; "hasOwnProperty";
    "isPrototypeOf"; "propertyIsEnumerable"; "__proto__"; "__defineGetter__";
    "__defineSetter__"; "__lookupGetter__"; "__lookupSetter__" ].

Inductive Property : Set :=
| Own (keywords : list string)
| Inherited
| Undefined.

(** [emergencyKeywords[language]] *)
Definition keywordsProperty (language : string) : Property :=
  match find (fun e => String.eqb (fst e) language) emergencyKeywords with
  | Some (_, kws) => Own kws
  | None =>
      if existsb (String.eqb language) objectPrototypeKeys
      then Inherited else Undefined
  end.

Definition noEmergency : EmergencyCheck :=
  {| isEmergency := false; keyword := None; confidence := None |}.

(** [checkForEmergency(text, language)]; the left summand is a thrown
    exception. *)
Definition checkForEmergency (text : option string) (language : string)
  : Exception + EmergencyCheck :=
  let keywords :=
    match keywordsProperty language with
    | Undefined => keywordsProperty "en"
    | p => p
    end in
  match text with
  | None => inl (TypeError "Cannot read properties of undefined (reading 'toLowerCase')")
  | Some t =>
      let lowerText := toLowerCase t in
      match keywords with
      | Own kws =>
          match find (fun k => includes lowerText (toLowerCase k)) kws with
          | Some k =>
              inr {| isEmergency := true; keyword := Some k; confidence := Some 9 |}
          | None => inr noEmergency
          end
      | _ => inl (TypeError "keywords is not iterable")
      end
  end.

Definition symptomKeywords : list string :=
  [ "fever"; "headache"; "cough"; "cold"; "pain"; "tired"; "nausea";
    "vomit"; "diarrhea"; "stomach"; "chest"; "throat"; "body aches" ].

Definition extractSymptoms (text : string) : list Symptom :=
  let lowerText := toLowerCase text in
  map (fun s => {| symptomName := s; symptomSeverity := "mild";
                   symptomDuration := "unknown" |})
      (filter (fun s => includes lowerText s) symptomKeywords).

Record TriageResult : Set := {
  resultSymptoms : list Symptom;
  needsMoreInfo : bool;
  resultConfidence : nat
}.

(** [performBasicTriage(message, session)]: the session is not consulted. *)
Definition performBasicTriage (text : string) (session : Session) : TriageResult :=
  let symptoms := extractSymptoms text in
  {| resultSymptoms := symptoms;
     needsMoreInfo := (List.length symptoms <? 2)%nat;
     resultConfidence := if (0 <? List.length symptoms)%nat then 8 else 3 |}.

Definition digitValue (c : ascii) : nat := nat_of_ascii c - 48.

(** [/\b(\d{1,2})\b/] tried at one position: two digits first (the
    quantifier is greedy), then one digit; each time the closing [\b] must
    hold. The value is [parseInt] of the captured digits. *)
Definition ageMatchHere (prev : option ascii) (s : string) : option nat :=
  if Regex.wordBoundary prev (head s) then
    match s with
    | String a r =>
        if isDigit a then
          match r with
          | String b r' =>
              if isDigit b && Regex.wordBoundary (Some b) (head r')
              then Some (10 * digitValue a + digitValue b)
              else if Regex.wordBoundary (Some a) (Some b)
                   then Some (digitValue a) else None
          | EmptyString =>
              if Regex.wordBoundary (Some a) None
              then Some (digitValue a) else None
          end
        else None
    | EmptyString => None
    end
  else None.

(** [text.match(/\b(\d{1,2})\b/)]: the leftmost match. *)
Fixpoint ageMatch (prev : option ascii) (s : string) : option nat :=
  match s with
  | EmptyString => None
  | String c r =>
      match ageMatchHere prev s with
      | Some n => Some n
      | None => ageMatch (Some c) r
      end
  end.

Definition extractDemographics (text : string) : Demographics :=
  let lowerText := toLowerCase text in
  {| age :=
       match ageMatch None text with
       | Some n => if (1 <=? n)%nat && (n <=? 120)%nat then Some n else None
       | None => None
       end;
     gender :=
       if includes lowerText "male" && negb (includes lowerText "female")
       then Some "male"
       else if includes lowerText "female" then Some "female" else None |}.


(** *** Collaborator calls and small helpers *)

Definition liftE {A} (r : Exception + A) : M A :=
  match r with
  | inl e => throw e
  | inr a => ret a
  end.

(** Calling a string method on [message.original] throws when it is
    [undefined]. *)
Definition requireText (o : option string) : M string :=
  match o with
  | Some t => ret t
  | None => throw (TypeError "Cannot read properties of undefined")
  end.

Definition updateSessionState (sessionId : string) (newState : ConversationState)
  : M unit :=
  updateSession sessionId
    {| newConversationState := Some newState; newPreferredLanguage := None;
       newUserData := None; newTriageData := None; newSelectedProvider := None |}.

(** [session.preferredLanguage || 'en'] *)
Definition languageOrEn (session : Session) : string :=
  match preferredLanguage session with
  | EmptyString => "en"
  | l => l
  end.

Definition generateErrorResponse (language : string) : Response :=
  TextResponse (Localized "general_error" language).

Definition findMockProviders : list Provider :=
  [ {| providerId := "1"; providerName := "Dr. Adebayo Johnson";
       specialty := "General Practice"; distance := Some "2.5km"; location := None;
       rating := "4.8" |};
    {| providerId := "2"; providerName := "Dr. Fatima Ali";
       specialty := "Family Medicine"; distance := Some "3.2km"; location := None;
       rating := "4.7" |};
    {| providerId := "3"; providerName := "Lagos Medical Center";
       specialty := "Multi-specialty"; distance := Some "5.1km"; location := None;
       rating := "4.6" |} ].

Definition mockAssessment : Assessment :=
  {| riskScore := 3;
     severity := "MODERATE";
     recommendation :=
       "Schedule an appointment with a healthcare provider within 24-48 hours";
     likelyConditions := [("Common Cold", 7); ("Flu", 6); ("Allergies", 4)] |}.

Definition hospitalsText : string :=
  "🏥 Nearby Hospitals:

• Lagos University Teaching Hospital - 15 min
• General Hospital Marina - 20 min
• Reddington Hospital - 12 min

For emergency, call 199 immediately!".

Definition emergencyNumbersText : string :=
  "📞 Emergency numbers:
🚨 199 - Emergency Services
🚨 112 - Alternative Emergency

Call immediately!".

Definition unknownSelectionText : string :=
  "I didn't understand that selection. Please try again.".

Definition unknownStateText : string :=
  "I'm not sure how to help with that. Let me start over. What health concern would you like to discuss today?".

(** *** Stage handlers *)

Definition performRiskAssessment (session : Session) : M Response :=
  tryCatch
    (let assessment := mockAssessment in
     updateSession (id session)
       {| newConversationState := None; newPreferredLanguage := None;
          newUserData := None;
          newTriageData :=
            Some {| symptoms := symptoms (triageData session);
                    assessed := Some assessment |};
          newSelectedProvider := None |} ;;
     if String.eqb (severity assessment) "EMERGENCY" then
       updateSessionState (id session) EMERGENCY_DETECTED ;;
       ret (EmergencyResponse (inr assessment))
     else
       updateSessionState (id session) PROVIDER_MATCHING ;;
       ret (TriageResultsResponse assessment findMockProviders))
    (fun error => throw error).

Definition handleInitialContact (message : Message) (session : Session)
  : M Response :=
  emergencyCheck <- liftE (checkForEmergency (original message) "en") ;;
  if isEmergency emergencyCheck then
    updateSessionState (id session) EMERGENCY_DETECTED ;;
    ret (EmergencyResponse (inl emergencyCheck))
  else
    updateSessionState (id session) LANGUAGE_SELECTION ;;
    ret WelcomeResponse.

Definition languageMap : list (string * string) :=
  [ ("english", "en"); ("pidgin", "pcm"); ("yoruba", "yo"); ("hausa", "ha");
    ("igbo", "ig") ].

Definition handleLanguageSelection (message : Message) (session : Session)
  : M Response :=
  text <- requireText (original message) ;;
  let lowerMessage := toLowerCase text in
  let selectedLanguage :=
    match find (fun e => includes lowerMessage (fst e)) languageMap with
    | Some (_, code) => code
    | None => "en"
    end in
  updateSession (id session)
    {| newConversationState := Some COLLECTING_DEMOGRAPHICS;
       newPreferredLanguage := Some selectedLanguage;
       newUserData := None; newTriageData := None;
       newSelectedProvider := None |} ;;
  ret (TextResponse (Paragraphs (Localized "hello" selectedLanguage)
                                (Localized "demographics_prompt" selectedLanguage))).

Definition handleDemographicsCollection (message : Message) (session : Session)
  : M Response :=
  tryCatch
    (text <- requireText (original message) ;;
     let demographics := extractDemographics text in
     updateSession (id session)
       {| newConversationState := Some COLLECTING_SYMPTOMS;
          newPreferredLanguage := None;
          newUserData := Some (spreadDemographics (userData session) demographics);
          newTriageData := None; newSelectedProvider := None |} ;;
     ret (TextResponse (Localized "symptoms_prompt" (preferredLanguage session))))
    (fun _ =>
       ret (TextResponse
              (Localized "demographics_clarification" (preferredLanguage session)))).

Definition handleSymptomCollection (message : Message) (session : Session)
  : M Response :=
  tryCatch
    (emergencyCheck <-
       liftE (checkForEmergency (original message) (preferredLanguage session)) ;;
     if isEmergency emergencyCheck then
       updateSessionState (id session) EMERGENCY_DETECTED ;;
       ret (EmergencyResponse (inl emergencyCheck))
     else
       text <- requireText (original message) ;;
       let triageResult := performBasicTriage text session in
       updateSession (id session)
         {| newConversationState := None; newPreferredLanguage := None;
            newUserData := None;
            newTriageData :=
              Some {| symptoms := Some (resultSymptoms triageResult);
                      assessed := assessed (triageData session) |};
            newSelectedProvider := None |} ;;
       if needsMoreInfo triageResult then
         ret (TextResponse (FollowUpQuestion (preferredLanguage session)))
       else
         updateSessionState (id session) ASSESSING_SEVERITY ;;
         performRiskAssessment session)
    (fun _ =>
       ret (TextResponse
              (Localized "symptom_collection_error" (preferredLanguage session)))).

Definition handleSeverityAssessment (message : Message) (session : Session)
  : M Response :=
  performRiskAssessment session.

Definition handleProviderMatching (message : Message) (session : Session)
  : M Response :=
  tryCatch
    (let providers := findMockProviders in
     if (List.length providers =? 0)%nat then
       ret (TextResponse (Localized "no_providers_found" (preferredLanguage session)))
     else
       ret (ListResponse
              (Localized "select_provider" (preferredLanguage session))
              "Select Provider" "Available Providers"
              (map (fun p => {| rowId := "provider_" ++ providerId p;
                                rowTitle := providerName p;
                                rowProvider := p |})
                   (firstn 10 providers))))
    (fun _ =>
       ret (TextResponse
              (Localized "provider_matching_error" (preferredLanguage session)))).

Definition handleAppointmentBooking (message : Message) (session : Session)
  : M Response :=
  updateSessionState (id session) COMPLETED ;;
  ret (TextResponse (Localized "appointment_booked" (preferredLanguage session))).

Definition handleProviderSelection (providerId : string) (session : Session)
  : M Response :=
  tryCatch
    (let provider :=
       {| providerId := providerId; providerName := "Dr. John Doe";
          specialty := "General Practitioner"; distance := None;
          location := Some "Victoria Island, Lagos"; rating := "4.8" |} in
     updateSessionState (id session) APPOINTMENT_BOOKING ;;
     updateSession (id session)
       {| newConversationState := None; newPreferredLanguage := None;
          newUserData := None; newTriageData := None;
          newSelectedProvider := Some provider |} ;;
     ret (ButtonsResponse (ProviderInfo provider (preferredLanguage session))
            [ ("book_now", "📅 Book Now");
              ("call_provider", "📞 Call Provider");
              ("get_directions", "🗺️ Get Directions") ]))
    (fun _ =>
       ret (TextResponse
              (Localized "provider_selection_error" (preferredLanguage session)))).

Definition findNearbyHospitals (session : Session) : M Response :=
  ret (TextResponse (Literal hospitalsText)).

(** [buttonId || listId] *)
Definition replyIdOf (message : Message) : option string :=
  orElse (buttonId message) (listId message).

(** [replyId?.startsWith(prefix)] as a condition. *)
Definition replyStartsWith (replyId : option string) (pre : string) : bool :=
  match replyId with
  | Some r => startsWith r pre
  | None => false
  end.

(** [replyId.replace(prefix, '')] when [replyId] starts with [prefix]: the
    first occurrence is the leading one. *)
Definition stripPrefix (replyId : option string) (pre : string) : string :=
  match replyId with
  | Some r => drop (String.length pre) r
  | None => EmptyString
  end.

Definition replyIs (replyId : option string) (name : string) : bool :=
  match replyId with
  | Some r => String.eqb r name
  | None => false
  end.

Definition handleInteractiveReply (message : Message) (session : Session)
  : M Response :=
  let replyId := replyIdOf message in
  if replyStartsWith replyId "lang_" then
    let selectedLanguage := stripPrefix replyId "lang_" in
    updateSession (id session)
      {| newConversationState := Some COLLECTING_DEMOGRAPHICS;
         newPreferredLanguage := Some selectedLanguage;
         newUserData := None; newTriageData := None;
         newSelectedProvider := None |} ;;
    ret (TextResponse (Localized "demographics_prompt" selectedLanguage))
  else if replyStartsWith replyId "provider_" then
    handleProviderSelection (stripPrefix replyId "provider_") session
  else if replyIs replyId "find_hospitals" then
    findNearbyHospitals session
  else if replyIs replyId "call_emergency" then
    ret (TextResponse (Literal emergencyNumbersText))
  else
    ret (TextResponse (Literal unknownSelectionText)).

Definition handleUnknownState (message : Message) (session : Session)
  : M Response :=
  ret (TextResponse (Literal unknownStateText)).

(** [session.conversationState || this.conversationStates.INITIAL] *)
Definition currentState (session : Session) : ConversationState :=
  match conversationState session with
  | Some st => st
  | None => INITIAL
  end.

(** The [switch] of [manageConversation]. *)
Definition dispatch (message : Message) (session : Session) : M Response :=
  match currentState session with
  | INITIAL => handleInitialContact message session
  | LANGUAGE_SELECTION => handleLanguageSelection message session
  | COLLECTING_DEMOGRAPHICS => handleDemographicsCollection message session
  | COLLECTING_SYMPTOMS => handleSymptomCollection message session
  | ASSESSING_SEVERITY => handleSeverityAssessment message session
  | PROVIDER_MATCHING => handleProviderMatching message session
  | APPOINTMENT_BOOKING => handleAppointmentBooking message session
  | _ => handleUnknownState message session
  end.

Definition manageConversation (message : Message) (session : Session)
  : M Response :=
  modify (record (ManageConversation message session)) ;;
  tryCatch
    (if isButtonReply message || isListReply message
     then handleInteractiveReply message session
     else dispatch message session)
    (fun _ => ret (generateErrorResponse (languageOrEn session))).

End ConversationFlowManager.

(** ** WebhookHandler and the payload parser of GupshupService *)

Module WebhookHandler.

Import Store ConversationFlowManager.

(** [payload.payload.sender] *)
Record Sender : Set := { phone : option string }.

(** [payload.payload] *)
Record InnerPayload : Set := {
  innerType : option string;
  sender : option Sender;
  innerText : option string;
  title : option string;
  innerId : option string;
  caption : option string
}.

(** The raw webhook body. *)
Record Payload : Set := {
  payloadType : option string;
  payloadId : option string;
  mobile : option string;
  text : option string;
  payload : option InnerPayload
}.

(** [payload.payload?.field] *)
Definition inner {A} (p : Payload) (field : InnerPayload -> option A) : option A :=
  match payload p with
  | Some i => field i
  | None => None
  end.

(** [payload.payload?.sender?.phone || payload.mobile] *)
Definition resolvePhone (p : Payload) : option string :=
  orElse (inner p (fun i => match sender i with
                            | Some s => phone s
                            | None => None
                            end))
         (mobile p).

Fixpoint allDigits (s : string) : bool :=
  match s with
  | EmptyString => true
  | String c r => isDigit c && allDigits r
  end.

(** [/^\+?[1-9]\d{1,14}$/.test(phoneNumber)] *)
Definition phoneFormatOk (phoneNumber : string) : bool :=
  let body :=
    match phoneNumber with
    | String "+" r => r
    | _ => phoneNumber
    end in
  match body with
  | String c r =>
      isDigit c && negb (Ascii.eqb c "0")
      && (1 <=? String.length r)%nat && (String.length r <=? 14)%nat
      && allDigits r
  | EmptyString => false
  end.

Record Validation : Set := { isValid : bool; errors : list string }.

Definition validateWebhookPayload (p : option Payload) : Validation :=
  match p with
  | None => {| isValid := false; errors := ["Empty payload"] |}
  | Some p =>
      let e1 :=
        if negb (truthy (payloadType p)) && negb (truthy (inner p innerType))
        then ["Missing message type"] else [] in
      let phoneNumber := resolvePhone p in
      let e2 := if negb (truthy phoneNumber) then ["Missing phone number"] else [] in
      let e3 :=
        match phoneNumber with
        | Some n =>
            if truthy phoneNumber && negb (phoneFormatOk n)
            then ["Invalid phone number format"] else []
        | None => []
        end in
      let errors := (e1 ++ e2 ++ e3)%list in
      {| isValid := (List.length errors =? 0)%nat; errors := errors |}
  end.

(** The object built by [GupshupService.parseIncomingMessage]. *)
Record MessageData : Set := {
  messageId : option string;
  phoneNumber : option string;
  messageType : option string;
  content : option string;
  dataIsButtonReply : bool;
  dataIsListReply : bool;
  dataButtonId : option string;
  dataListId : option string
}.

Definition mediaTypes : list string := ["image"; "document"; "audio"].

Definition parseIncomingMessage (p : option Payload) : option MessageData :=
  match p with
  | None => None
  | Some p =>
      let messageType := orElse (inner p innerType) (payloadType p) in
      let base content button list bid lid :=
        {| messageId := payloadId p;
           phoneNumber := resolvePhone p;
           messageType := messageType;
           content := content;
           dataIsButtonReply := button;
           dataIsListReply := list;
           dataButtonId := bid;
           dataListId := lid |} in
      Some
        match messageType with
        | Some t =>
            if String.eqb t "text" then
              base (orElse (inner p innerText) (text p)) false false None None
            else if String.eqb t "button_reply" then
              base (inner p title) true false (inner p innerId) None
            else if String.eqb t "list_reply" then
              base (inner p title) false true None (inner p innerId)
            else if existsb (String.eqb t) mediaTypes then
              base (orElse (inner p caption) (Some "Media received"))
                   false false None None
            else base (Some "Unsupported message type") false false None None
        | None => base (Some "Unsupported message type") false false None None
        end
  end.

Definition statusTypes : list string :=
  ["delivered"; "read"; "sent"; "failed"; "enroute"].

Definition isStatusType (o : option string) : bool :=
  match o with
  | Some t => existsb (String.eqb t) statusTypes
  | None => false
  end.

Definition isStatusMessage (p : Payload) : bool :=
  isStatusType (payloadType p) || isStatusType (inner p innerType).

Definition exceptionMessage (e : Exception) : string :=
  match e with
  | TypeError m => m
  | Error m => m
  end.

Definition sendErrorMessage (phone : string) (error : Exception) : M unit :=
  let m := exceptionMessage error in
  let errorMessage :=
    if includes m "network" || includes m "timeout"
    then "I'm having trouble connecting right now. Please try again in a moment."
    else if includes m "database"
    then "I'm experiencing technical difficulties. Please try again later."
    else "I apologize, but I encountered an error while processing your request. Please try again." in
  modify (record (SendText phone errorMessage)).

Definition sendResponse (phone : string) (response : Response) (session : Session)
  : M unit :=
  modify (record (SendResponse phone response)).

Definition addToHistory (sessionId : string) (response : Response) : M unit :=
  modify (record (AddToHistory sessionId response)).

(** After validation the phone number is a non-empty string; [undefined]
    cannot reach the database calls. *)
Definition phoneOf (messageData : MessageData) : string :=
  match phoneNumber messageData with
  | Some n => n
  | None => EmptyString
  end.

Definition messageFor (messageData : MessageData) : Message :=
  {| original := content messageData;
     msgPhoneNumber := phoneOf messageData;
     msgType := messageType messageData;
     isButtonReply := dataIsButtonReply messageData;
     isListReply := dataIsListReply messageData;
     buttonId := dataButtonId messageData;
     listId := dataListId messageData |}.

(** [processUserMessage(messageData)]; [freshId] is the session id that would
    be generated if a session has to be created. *)
Definition processUserMessage (freshId : string) (messageData : MessageData)
  : M unit :=
  let phoneNumber := phoneOf messageData in
  tryCatch
    (isProcessed <-
       match messageId messageData with
       | Some (String c r) => isMessageProcessed (String c r) phoneNumber
       | _ => ret false
       end ;;
     if isProcessed then ret tt
     else
       session <- getOrCreateSession freshId phoneNumber ;;
       match messageId messageData with
       | Some (String c r) =>
           markWebhookMessageProcessed (String c r) phoneNumber (id session)
             (content messageData)
       | _ => ret tt
       end ;;
       response <- manageConversation (messageFor messageData) session ;;
       sendResponse phoneNumber response session ;;
       addToHistory (id session) response)
    (fun error => sendErrorMessage phoneNumber error).

Inductive WebhookResult : Set :=
| StatusProcessed
| Success (messageId : option string).

Definition joinErrors (errors : list string) : string :=
  String.concat ", " errors.

Definition processWebhook (freshId : string) (p : option Payload)
  : M WebhookResult :=
  tryCatch
    (let validationResult := validateWebhookPayload p in
     if negb (isValid validationResult) then
       throw (Error ("Invalid payload: " ++ joinErrors (errors validationResult)))
     else
       match parseIncomingMessage p, p with
       | Some messageData, Some raw =>
           if isStatusMessage raw then ret StatusProcessed
           else
             processUserMessage freshId messageData ;;
             ret (Success (messageId messageData))
       | _, _ => throw (Error "Cannot parse message")
       end)
    (fun error => throw error).

End WebhookHandler.

(** ** Vocabulary of the properties *)

Module Properties.

Import Store ConversationFlowManager WebhookHandler.

(** The fixed ordering of the stages; [EMERGENCY_DETECTED] and [FOLLOW_UP]
    have no place in it. *)
Definition stageRank (st : ConversationState) : option nat :=
  match st with
  | INITIAL => Some 0
  | LANGUAGE_SELECTION => Some 1
  | COLLECTING_DEMOGRAPHICS => Some 2
  | COLLECTING_SYMPTOMS => Some 3
  | ASSESSING_SEVERITY => Some 4
  | PROVIDER_MATCHING => Some 5
  | APPOINTMENT_BOOKING => Some 6
  | COMPLETED => Some 7
  | EMERGENCY_DETECTED | FOLLOW_UP => None
  end.


(** The stage a session is in according to its row, read the way
    [manageConversation] reads it. *)
Definition stageIn (sessionId : string) (w : World) : ConversationState :=
  match storedState sessionId w with
  | Some st => st
  | None => INITIAL
  end.

(** The stage of the session after the state machine has processed [m]. *)
Definition stageAfter (m : Message) (s : Session) (w : World) : ConversationState :=
  stageIn (id s) (worldOf (manageConversation m s w)).

Definition replyOf (m : Message) (s : Session) (w : World) : option Response :=
  valueOf (manageConversation m s w).

(** A free-text message: neither a button reply nor a list reply. *)
Definition freeText (m : Message) (t : string) : Prop :=
  isButtonReply m = false /\ isListReply m = false /\ original m = Some t.

(** [text] contains, case-insensitively, a keyword configured for
    [language]. *)
Definition containsEmergencyKeyword (text language : string) : Prop :=
  exists kws k,
    keywordsProperty language = Own kws /\ In k kws /\
    includes (toLowerCase text) (toLowerCase k) = true.

(** A structured reply that [handleInteractiveReply] routes to language or
    provider selection, whatever the stage. *)
Definition setsStageGlobally (m : Message) : bool :=
  (isButtonReply m || isListReply m)
  && (replyStartsWith (replyIdOf m) "lang_"
      || replyStartsWith (replyIdOf m) "provider_").

(** A sequence of session writes applied to a world. *)
Definition applyWrites (us : list (string * Updates)) (w : World) : World :=
  fold_left (fun w su => writeSession (fst su) (snd su) w) us w.

(** A computation whose only effect on the world is a sequence of session
    writes. *)
Definition onlyWrites {A} (m : M A) : Prop :=
  forall w, exists us, worldOf (m w) = applyWrites us w.

Definition isManageConversation (e : Event) : bool :=
  match e with
  | ManageConversation _ _ => true
  | _ => false
  end.

Definition isDedupCall (e : Event) : bool :=
  match e with
  | IsMessageProcessed _ _ => true
  | MarkWebhookMessageProcessed _ _ _ => true
  | _ => false
  end.

Definition isSessionMutation (e : Event) : bool :=
  match e with
  | CreateSession _ => true
  | UpdateSession _ _ => true
  | _ => false
  end.

(** How many times the state machine has been invoked. *)
Definition stateMachineRuns (w : World) : nat :=
  List.length (filter isManageConversation (trace w)).

Definition dedupCalls (w : World) : nat :=
  List.length (filter isDedupCall (trace w)).

(** The two unique columns of a session row. *)
Definition sessionKey (s : Session) : string * string :=
  (id s, Model.phoneNumber s).

Definition updateEvent (su : string * Updates) : Event :=
  UpdateSession (fst su) (snd su).




(** The three grounds for rejecting a payload, in the words of the
    specification. *)
Definition noMessageType (p : option Payload) : Prop :=
  match p with
  | Some p => truthy (payloadType p) = false /\ truthy (inner p innerType) = false
  | None => True
  end.

Definition noUserKey (p : option Payload) : Prop :=
  match p with
  | Some p => truthy (resolvePhone p) = false
  | None => True
  end.

Definition badPhoneFormat (p : option Payload) : Prop :=
  match p with
  | Some p =>
      exists n, resolvePhone p = Some n /\ truthy (Some n) = true /\
                phoneFormatOk n = false
  | None => False
  end.

Definition isInvalidPayloadError (e : Exception) : Prop :=
  exists details, e = Error ("Invalid payload: " ++ details).



(** Concrete sessions, worlds and messages used as test inputs. *)
Definition sessionAt (st : ConversationState) (language : string) : Session :=
  {| id := "sess_1";
     Model.phoneNumber := "2348012345678";
     conversationState := Some st;
     preferredLanguage := language;
     userData := noDemographics;
     triageData := noTriageData |}.

Definition worldWith (s : Session) : World :=
  {| sessions := [s]; conversation_history := []; trace := [] |}.

Definition textMessage (t : string) : Message :=
  {| original := Some t;
     msgPhoneNumber := "2348012345678";
     msgType := Some "text";
     isButtonReply := false;
     isListReply := false;
     buttonId := None;
     listId := None |}.

Definition buttonReply (replyId : string) : Message :=
  {| original := Some "button title";
     msgPhoneNumber := "2348012345678";
     msgType := Some "button_reply";
     isButtonReply := true;
     isListReply := false;
     buttonId := Some replyId;
     listId := None |}.

Definition emptyWorld : World :=
  {| sessions := []; conversation_history := []; trace := [] |}.

(** A text payload from the phone number 2348012345678. *)
Definition textPayload (messageId : option string) (t : string) : Payload :=
  {| payloadType := Some "text";
     payloadId := messageId;
     mobile := Some "2348012345678";
     text := Some t;
     payload := None |}.

Definition textData (messageId : option string) (t : string) : MessageData :=
  {| messageId := messageId;
     phoneNumber := Some "2348012345678";
     messageType := Some "text";
     content := Some t;
     dataIsButtonReply := false;
     dataIsListReply := false;
     dataButtonId := None;
     dataListId := None |}.

End Properties.

(** ** GupshupService: what the outbound messages offer to press *)

Module GupshupService.

(** [messageTemplates.languageSelection.buttons], sent by
    [sendWelcomeMessage]: id and title of each button. *)
Definition languageSelectionButtons : list (string * string) :=
  [ ("lang_en", "English"); ("lang_pcm", "Pidgin"); ("lang_yo", "Yoruba");
    ("lang_ha", "Hausa"); ("lang_ig", "Igbo") ].

(** The buttons [sendEmergencyAlert] attaches to the alert. *)
Definition emergencyAlertButtons : list (string * string) :=
  [ ("find_hospitals", "🏥 Find Hospitals"); ("call_emergency", "📞 Call 199") ].

(** The rows [sendTriageResults] builds from the providers of a triage
    result: at most ten, each with the id [provider_<id>]. *)
Definition triageResultRows (providers : list Provider) : list ListRow :=
  map (fun p => {| rowId := "provider_" ++ providerId p;
                   rowTitle := providerName p;
                   rowProvider := p |})
      (firstn 10 providers).

End GupshupService.

(** ** The AI chat service (processConversation and its helpers)

    The reply of the language model is an input of the embedding: the
    properties hold whatever it answers. *)

Module AiService.

Inductive ConversationStage : Set :=
| GREETING
| NAME_COLLECTION
| PHONE_COLLECTION
| SYMPTOM_INQUIRY
| SYMPTOM_CLARIFICATION
| DIAGNOSIS
| DOCTOR_CONFIRMATION
| FORM_MODAL.

Inductive Role : Set := user | assistant.

Record ConversationState : Set := {
  stage : ConversationStage;
  patientName : option string;
  phoneNumber : option string;
  symptoms : list string;
  conversationHistory : list (Role * string);
  language : string;
  possibleAilments : option (list string)
}.

(** [initializeConversationState(language)] *)
Definition initializeConversationState (language : string) : ConversationState :=
  {| stage := GREETING;
     patientName := None;
     phoneNumber := None;
     symptoms := [];
     conversationHistory := [];
     language := language;
     possibleAilments := None |}.

Definition utf8 (bytes : list nat) : string :=
  fold_right (fun b s => String (ascii_of_nat b) s) EmptyString bytes.

(** The white space and line terminators [String.prototype.trim] removes, in
    UTF-8: U+0009 to U+000D, U+0020, U+00A0, U+1680, U+2000 to U+200A,
    U+2028, U+2029, U+202F, U+205F, U+3000 and U+FEFF. *)
Definition whiteSpace : list string :=
  map utf8
    ([ [9]; [10]; [11]; [12]; [13]; [32]; [194; 160]; [225; 154; 128] ]
     ++ map (fun b => [226; 128; b]) (seq 128 11)
     ++ [ [226; 128; 168]; [226; 128; 169]; [226; 128; 175]; [226; 129; 159];
          [227; 128; 128]; [239; 187; 191] ])%list.

Fixpoint reverseOnto (s acc : string) : string :=
  match s with
  | EmptyString => acc
  | String c r => reverseOnto r (String c acc)
  end.

Definition reverse (s : string) : string := reverseOnto s EmptyString.

(** [stripLeading spaces s skip]: [s] without its next [skip] bytes and
    without the members of [spaces] that follow them. *)
Fixpoint stripLeading (spaces : list string) (s : string) (skip : nat) : string :=
  match s with
  | EmptyString => EmptyString
  | String c r =>
      match skip with
      | S k => stripLeading spaces r k
      | O =>
          match find (startsWith s) spaces with
          | Some space => stripLeading spaces r (String.length space - 1)
          | None => s
          end
      end
  end.

Definition trimStart (s : string) : string := stripLeading whiteSpace s 0.

Definition trimEnd (s : string) : string :=
  reverse (stripLeading (map reverse whiteSpace) (reverse s) 0).

(** [s.trim()] *)
Definition trim (s : string) : string := trimEnd (trimStart s).

(** [/w1|w2|.../i.test(s)] for lower-case literal words: some word occurs in
    [s], letter case apart. *)
Definition testAny (words : list string) (s : string) : bool :=
  existsb (fun w => includes (toLowerCase s) w) words.

Definition wantsDoctor (userMessage : string) : bool :=
  testAny ["yes"; "yeah"; "ok"; "sure"; "i need"; "i want"; "book"; "appointment"]
          userMessage
  || testAny ["yes"; "ehen"; "okay"; "sure"] userMessage.

Definition withStage (st : ConversationStage) (state : ConversationState)
  : ConversationState :=
  {| stage := st;
     patientName := patientName state;
     phoneNumber := phoneNumber state;
     symptoms := symptoms state;
     conversationHistory := conversationHistory state;
     language := language state;
     possibleAilments := possibleAilments state |}.

(** [newState.symptoms.push(userMessage)] *)
Definition pushSymptom (userMessage : string) (state : ConversationState)
  : ConversationState :=
  {| stage := stage state;
     patientName := patientName state;
     phoneNumber := phoneNumber state;
     symptoms := (symptoms state ++ [userMessage])%list;
     conversationHistory := conversationHistory state;
     language := language state;
     possibleAilments := possibleAilments state |}.

(** [updateConversationState(state, userMessage, aiResponse)] *)
Definition updateConversationState (state : ConversationState)
  (userMessage aiResponse : string) : ConversationState :=
  match stage state with
  | GREETING => withStage NAME_COLLECTION state
  | NAME_COLLECTION =>
      {| stage := PHONE_COLLECTION;
         patientName := Some (trim userMessage);
         phoneNumber := phoneNumber state;
         symptoms := symptoms state;
         conversationHistory := conversationHistory state;
         language := language state;
         possibleAilments := possibleAilments state |}
  | PHONE_COLLECTION =>
      {| stage := SYMPTOM_INQUIRY;
         patientName := patientName state;
         phoneNumber := Some (trim userMessage);
         symptoms := symptoms state;
         conversationHistory := conversationHistory state;
         language := language state;
         possibleAilments := possibleAilments state |}
  | SYMPTOM_INQUIRY =>
      withStage SYMPTOM_CLARIFICATION (pushSymptom userMessage state)
  | SYMPTOM_CLARIFICATION =>
      let pushed := pushSymptom userMessage state in
      if (2 <=? List.length (symptoms pushed))%nat
      then withStage DIAGNOSIS pushed else pushed
  | DIAGNOSIS => withStage DOCTOR_CONFIRMATION state
  | DOCTOR_CONFIRMATION =>
      if wantsDoctor userMessage then withStage FORM_MODAL state else state
  | FORM_MODAL => state
  end.

Definition isFormModal (st : ConversationStage) : bool :=
  match st with
  | FORM_MODAL => true
  | _ => false
  end.

Record ConversationResult : Set := {
  response : string;
  newState : ConversationState;
  shouldShowModal : bool
}.

(** [processConversation(userMessage, conversationState)]; [aiResponse] is
    what [generateStageResponse] resolves to. *)
Definition processConversation (userMessage aiResponse : string)
  (conversationState : ConversationState) : ConversationResult :=
  let detectedLanguage := Language.detectLanguage userMessage in
  let withReply :=
    {| stage := stage conversationState;
       patientName := patientName conversationState;
       phoneNumber := phoneNumber conversationState;
       symptoms := symptoms conversationState;
       conversationHistory :=
         (conversationHistory conversationState
          ++ [(user, userMessage)] ++ [(assistant, aiResponse)])%list;
       language := detectedLanguage;
       possibleAilments := possibleAilments conversationState |} in
  let newState := updateConversationState withReply userMessage aiResponse in
  {| response := aiResponse;
     newState := newState;
     shouldShowModal := isFormModal (stage newState) |}.

(** A whole conversation: each turn is a user message with the reply the
    model gave to it; the state saved after a turn is the state the next turn
    starts from, as the chat route does. *)
Definition converse (turns : list (string * string)) (state : ConversationState)
  : ConversationState :=
  fold_left (fun st turn => newState (processConversation (fst turn) (snd turn) st))
            turns state.

Definition stageRank (st : ConversationStage) : nat :=
  match st with
  | GREETING => 0
  | NAME_COLLECTION => 1
  | PHONE_COLLECTION => 2
  | SYMPTOM_INQUIRY => 3
  | SYMPTOM_CLARIFICATION => 4
  | DIAGNOSIS => 5
  | DOCTOR_CONFIRMATION => 6
  | FORM_MODAL => 7
  end.

End AiService.

(** ** The /webhook route (index.tsx) *)

Module Route.

Import WebhookHandler.

Inductive HttpReply : Set :=
| Json200 (messageId : option string)
| Json500.

(** [app.post('/webhook', ...)] once the services are initialised; [body] is
    the parsed JSON body. *)
Definition postWebhook (freshId : string) (body : option Payload) : M HttpReply :=
  tryCatch
    (result <- processWebhook freshId body ;;
     ret (Json200 match result with
                  | Success messageId => messageId
                  | StatusProcessed => None
                  end))
    (fun _ => ret Json500).

End Route.

(** ** Further vocabulary *)

Module MoreProperties.

Import Store ConversationFlowManager WebhookHandler Properties.

(** The row of the session after the state machine has processed [m]. *)
Definition rowAfter (m : Message) (s : Session) (w : World) : option Session :=
  getSession (id s) (worldOf (manageConversation m s w)).

Definition listReply (replyId : string) : Message :=
  {| original := Some "row title";
     msgPhoneNumber := "2348012345678";
     msgType := Some "list_reply";
     isButtonReply := false;
     isListReply := true;
     buttonId := None;
     listId := Some replyId |}.

(** A message that is not a structured reply, whatever its text. *)
Definition notReply (m : Message) : Prop :=
  isButtonReply m = false /\ isListReply m = false.

(** Deliveries processed one after the other; each comes with the session id
    that would be drawn if a session had to be created. *)
Definition deliverAll (deliveries : list (string * MessageData)) (w : World)
  : World :=
  fold_left (fun w d => worldOf (processUserMessage (fst d) (snd d) w))
            deliveries w.

(** Deliveries whose message data carries a message id, and those whose
    data carries none ([if (messageId)] in [processUserMessage]). *)
Definition withId (d : string * MessageData) : bool :=
  truthy (messageId (snd d)).

Definition withoutId (d : string * MessageData) : bool :=
  negb (truthy (messageId (snd d))).

(** The phone numbers of the stored sessions. *)
Definition phones (w : World) : list string :=
  map Model.phoneNumber (sessions w).

End MoreProperties.

Import Store ConversationFlowManager WebhookHandler Properties Language.
Import MoreProperties.

(** * Theorems *)

(** ** Language detection *)

Section LanguageDetection.

Lemma reduceHighest_step (a b : string * nat) (rest : list (string * nat)) :
  reduceHighest a (b :: rest)
  = reduceHighest (if (snd b <? snd a)%nat then a else b) rest.
Proof. reflexivity. Qed.

(** The [reduce] keeps the last of the entries that carry the highest score. *)
Lemma reduceHighest_last_highest (rest : list (string * nat)) :
  forall first,
  exists pre post,
    first :: rest = (pre ++ reduceHighest first rest :: post)%list /\
    Forall (fun e => snd e <= snd (reduceHighest first rest)) pre /\
    Forall (fun e => snd e < snd (reduceHighest first rest)) post.
Proof.
  induction rest as [|b rest IH]; intros a.
  - exists [], []. repeat split; constructor.
  - rewrite reduceHighest_step.
    set (c := if (snd b <? snd a)%nat then a else b).
    destruct (IH c) as (pre & post & Heq & Hpre & Hpost).
    remember (reduceHighest c rest) as r eqn:Hr. clear Hr IH.
    assert (Hc : snd c <= snd r).
    { destruct pre as [|x pre]; simpl in Heq; injection Heq as Hx _.
      - rewrite Hx. lia.
      - subst x. inversion Hpre; assumption. }
    subst c. destruct (Nat.ltb_spec (snd b) (snd a)) as [Hlt|Hge].
    + destruct pre as [|x pre]; simpl in Heq; injection Heq as Hx Hrest.
      * exists [], (b :: rest). subst r rest. simpl.
        repeat split; try constructor; assumption.
      * exists (a :: b :: pre), post. subst x rest. simpl.
        repeat split; try assumption.
        inversion Hpre; subst.
        constructor; [assumption|]. constructor; [lia|assumption].
    + exists (a :: pre), post. simpl. rewrite Heq.
      repeat split; try assumption.
      constructor; [lia|assumption].
Qed.

Lemma scoreEntries_keys (text : string) :
  map fst (scoreEntries text) = ["pidgin"; "yoruba"; "igbo"; "hausa"].
Proof. reflexivity. Qed.

(** C5 (as amended): [detectLanguage] scores the four languages in the order
    pidgin, yoruba, igbo, hausa; it returns a language whose score is the
    highest, namely the LAST such language in that order (every later language
    scores strictly less), and it returns "english" when that highest score is
    zero, that is when every language scores zero. *)
Theorem detectLanguage_last_highest_scorer (text : string) :
  exists pre lang n post,
    map fst (scoreEntries text) = ["pidgin"; "yoruba"; "igbo"; "hausa"] /\
    scoreEntries text = (pre ++ (lang, n) :: post)%list /\
    Forall (fun e => snd e <= n) pre /\
    Forall (fun e => snd e < n) post /\
    detectLanguage text = (if (0 <? n)%nat then lang else "english").
Proof.
  pose proof (scoreEntries_keys text) as Hkeys.
  unfold detectLanguage.
  destruct (scoreEntries text) as [|e es] eqn:Hes; [discriminate|].
  destruct (reduceHighest_last_highest es e) as (pre & post & Heq & Hpre & Hpost).
  destruct (reduceHighest e es) as [lang n] eqn:Hred.
  exists pre, lang, n, post. simpl in *.
  repeat split; assumption || reflexivity.
Qed.

(** C5, counterexample: on "wetin sannu" pidgin and hausa tie with one hit
    each; the code answers "hausa", the last of the two, where the first
    language in the declared order is "pidgin". *)
Lemma detectLanguage_tie_goes_to_last :
  scoreEntries "wetin sannu"
  = [("pidgin", 1); ("yoruba", 0); ("igbo", 0); ("hausa", 1)] /\
  detectLanguage "wetin sannu" = "hausa" /\
  detectLanguageFirstWins "wetin sannu" = "pidgin" /\
  detectLanguage "wetin sannu" <> detectLanguageFirstWins "wetin sannu".
Proof.
  repeat split; try reflexivity.
  vm_compute. discriminate.
Qed.

End LanguageDetection.

(** ** The session store *)

Section StoreFacts.

Lemma find_updateRows (sid : string) (u : Updates) (rows : list Session) :
  find (fun s => String.eqb (id s) sid) (updateRows sid u rows)
  = option_map (applyUpdates u) (find (fun s => String.eqb (id s) sid) rows).
Proof.
  induction rows as [|r rows IH]; [reflexivity|].
  simpl. destruct (String.eqb (id r) sid) eqn:E; simpl.
  - rewrite E. reflexivity.
  - rewrite E. exact IH.
Qed.

Lemma getSession_writeSession (sid : string) (u : Updates) (w : World) :
  getSession sid (writeSession sid u w)
  = option_map (applyUpdates u) (getSession sid w).
Proof. apply find_updateRows. Qed.

Lemma getSession_record (sid : string) (e : Event) (w : World) :
  getSession sid (record e w) = getSession sid w.
Proof. reflexivity. Qed.

Lemma stageIn_of_row (s : Session) (w : World) :
  getSession (id s) w = Some s -> stageIn (id s) w = currentState s.
Proof.
  intros H. unfold stageIn, storedState, currentState. rewrite H. reflexivity.
Qed.



(** The table the statements of ChatService name is not in the schema. *)
Lemma conversation_history_is_not_a_table :
  tableExists "conversation_history" = false.
Proof. reflexivity. Qed.

End StoreFacts.

(** Case analysis on the innermost scrutinee of the goal. *)
Ltac break_match :=
  match goal with
  | |- context [match ?x with _ => _ end] =>
      lazymatch x with
      | context [match _ with _ => _ end] => fail
      | _ => destruct x eqn:?
      end
  end.

(** Unfolds one run of the state machine down to the writes it makes. *)
Ltac run_flow :=
  unfold stageAfter, replyOf, manageConversation, dispatch,
    handleInteractiveReply, handleInitialContact, handleLanguageSelection,
    handleDemographicsCollection, handleSymptomCollection,
    handleSeverityAssessment, handleProviderMatching, handleAppointmentBooking,
    handleProviderSelection, handleUnknownState, findNearbyHospitals,
    performRiskAssessment, updateSessionState, updateSession, liftE,
    requireText, currentState, bind, tryCatch, modify, ret, throw in *;
  change (String.eqb (severity mockAssessment) "EMERGENCY") with false;
  change (List.length findMockProviders =? 0)%nat with false;
  cbv iota.

(** Reads the stage back from the store after the writes; [H] says which row
    the session object was loaded from. *)
Ltac read_stage H :=
  unfold stageIn, storedState; cbn [worldOf valueOf];
  rewrite ?getSession_writeSession, ?getSession_record, ?H; cbn;
  repeat match goal with
         | E : conversationState ?s = _ |- context [conversationState ?s] =>
             rewrite E
         end.

(** ** The conversation state machine *)

Section StateMachine.

Variables (m : Message) (s : Session) (w : World).

(** The session object is the row stored under its id, as it is when
    [processUserMessage] has just loaded it. *)
Hypothesis loaded : getSession (id s) w = Some s.


(** C9 (as amended): once a session is in EMERGENCY_DETECTED or COMPLETED,
    every further inbound message is answered with some reply, and the stage
    is left as it is by every free-text message and by every structured reply
    whose id starts with neither lang_ nor provider_. *)
Theorem terminal_stage_kept_outside_global_replies :
  currentState s = EMERGENCY_DETECTED \/ currentState s = COMPLETED ->
  (exists r, replyOf m s w = Some r) /\
  (setsStageGlobally m = false -> stageAfter m s w = currentState s).
Proof.
  intros T. split.
  - run_flow. repeat break_match; cbn; eexists; reflexivity.
  - intros G. unfold setsStageGlobally in G.
    destruct (isButtonReply m || isListReply m) eqn:R.
    + simpl in G. apply orb_false_iff in G. destruct G as [G1 G2].
      run_flow. rewrite R, G1, G2.
      repeat break_match; read_stage loaded; reflexivity.
    + run_flow. rewrite R.
      destruct (conversationState s) as [[]|] eqn:E;
        try (destruct T; discriminate);
        read_stage loaded; reflexivity.
Qed.

(** C7 (as amended): a structured reply is routed by its replyId alone,
    whatever the current stage: lang_* selects the language and sets
    COLLECTING_DEMOGRAPHICS, provider_* selects the provider and sets
    APPOINTMENT_BOOKING, find_hospitals and call_emergency answer with a
    fixed text; a replyId matching none of these is answered with the fixed
    text "I didn't understand that selection. Please try again." and no
    stage handler runs (the session is not written). *)
Theorem structured_reply_routed_by_id_only :
  isButtonReply m || isListReply m = true ->
  let replyId := replyIdOf m in
  if replyStartsWith replyId "lang_" then
    stageAfter m s w = COLLECTING_DEMOGRAPHICS /\
    replyOf m s w
    = Some (TextResponse
              (Localized "demographics_prompt" (stripPrefix replyId "lang_")))
  else if replyStartsWith replyId "provider_" then
    stageAfter m s w = APPOINTMENT_BOOKING
  else
    worldOf (manageConversation m s w) = record (ManageConversation m s) w /\
    stageAfter m s w = currentState s /\
    replyOf m s w
    = Some (TextResponse
              (Literal
                 (if replyIs replyId "find_hospitals" then hospitalsText
                  else if replyIs replyId "call_emergency"
                       then emergencyNumbersText
                       else unknownSelectionText))).
Proof.
  intros R replyId. subst replyId. run_flow. rewrite R.
  repeat break_match; repeat split; try reflexivity;
    read_stage loaded; reflexivity.
Qed.

(** The emergency check fires on every text that contains a keyword
    configured for the language. *)
Lemma checkForEmergency_fires (t language : string) :
  containsEmergencyKeyword t language ->
  exists c, checkForEmergency (Some t) language = inr c /\ isEmergency c = true.
Proof.
  intros (kws & k & Hkws & Hin & Hinc).
  unfold checkForEmergency. rewrite Hkws.
  destruct (find (fun k0 => includes (toLowerCase t) (toLowerCase k0)) kws)
    as [k'|] eqn:F.
  - eexists. split; reflexivity.
  - apply (find_none _ _ F) in Hin. cbv beta in Hin. congruence.
Qed.

(** Where the handlers do run the check, that is in INITIAL (with the English
    keywords) and in COLLECTING_SYMPTOMS (with the keywords of the session's
    language), a free-text message containing a keyword escalates. *)
Lemma emergency_escalates_where_checked (t : string) :
  freeText m t ->
  (currentState s = INITIAL /\ containsEmergencyKeyword t "en") \/
  (currentState s = COLLECTING_SYMPTOMS /\
   containsEmergencyKeyword t (preferredLanguage s)) ->
  stageAfter m s w = EMERGENCY_DETECTED /\
  exists c, replyOf m s w = Some (EmergencyResponse (inl c)).
Proof.
  intros (B & L & T) [[St K]|[St K]];
    apply checkForEmergency_fires in K; destruct K as (c & Hc & Hem);
    run_flow; rewrite B, L, T; cbn [orb];
    destruct (conversationState s) as [[]|] eqn:E; try discriminate;
    rewrite Hc, Hem; (split; [read_stage loaded; reflexivity|]);
    eexists; reflexivity.
Qed.


(** In COLLECTING_DEMOGRAPHICS every free-text message merges what was
    extracted into the stored demographics and moves on to
    COLLECTING_SYMPTOMS. *)
Lemma demographics_merged_and_stage_advanced (t : string) :
  freeText m t ->
  currentState s = COLLECTING_DEMOGRAPHICS ->
  stageAfter m s w = COLLECTING_SYMPTOMS /\
  option_map userData (getSession (id s) (worldOf (manageConversation m s w)))
  = Some (spreadDemographics (userData s) (extractDemographics t)).
Proof.
  intros (B & L & T) St.
  run_flow. rewrite B, L, T in *. cbn [orb].
  destruct (conversationState s) as [[]|] eqn:E; try discriminate.
  split; read_stage loaded; reflexivity.
Qed.

End StateMachine.

(** ** Demographics extraction *)

Section Demographics.

Lemma digitValue_le_9 (c : ascii) : isDigit c = true -> digitValue c <= 9.
Proof.
  unfold isDigit, digitValue. intros H.
  apply andb_true_iff in H. destruct H as [_ H].
  apply Nat.leb_le in H. lia.
Qed.

Lemma ageMatchHere_below_100 (prev : option ascii) (t : string) (n : nat) :
  ageMatchHere prev t = Some n -> n < 100.
Proof.
  unfold ageMatchHere. intros H.
  destruct (Regex.wordBoundary prev (head t)); [|discriminate].
  destruct t as [|a r]; [discriminate|].
  destruct (isDigit a) eqn:Da; [|discriminate].
  pose proof (digitValue_le_9 a Da) as Ha.
  destruct r as [|b r'].
  - destruct (Regex.wordBoundary (Some a) None); inversion H; lia.
  - destruct (isDigit b) eqn:Db; cbn [andb] in H.
    + pose proof (digitValue_le_9 b Db) as Hb.
      destruct (Regex.wordBoundary (Some b) (head r')).
      * inversion H. lia.
      * destruct (Regex.wordBoundary (Some a) (Some b)); inversion H; lia.
    + destruct (Regex.wordBoundary (Some a) (Some b)); inversion H; lia.
Qed.

Lemma ageMatch_below_100 (t : string) :
  forall prev n, ageMatch prev t = Some n -> n < 100.
Proof.
  induction t as [|c r IH]; intros prev n H; [discriminate|].
  cbn [ageMatch] in H.
  destruct (ageMatchHere prev (String c r)) as [k|] eqn:Hk.
  - inversion H. subst k. exact (ageMatchHere_below_100 _ _ _ Hk).
  - exact (IH _ _ H).
Qed.

(** The pattern captures at most two digits, so whatever age is recorded lies
    in 1..99: the upper bound 120 of the range check is never reached. *)
Lemma extracted_age_below_100 (t : string) (n : nat) :
  age (extractDemographics t) = Some n -> 1 <= n <= 99.
Proof.
  unfold extractDemographics. cbn [age]. intros H.
  destruct (ageMatch None t) as [k|] eqn:Hk; [|discriminate].
  apply ageMatch_below_100 in Hk.
  destruct (1 <=? k)%nat eqn:H1; cbn [andb] in H; [|discriminate].
  destruct (k <=? 120)%nat; inversion H. subst k.
  apply Nat.leb_le in H1. lia.
Qed.

(** C6 (the code at the failing input): a 105-year-old stating their age in
    stage COLLECTING_DEMOGRAPHICS gets no age recorded, although 105 lies in
    the range 1..120 that the code itself checks for; gender is recorded and
    the stage advances to COLLECTING_SYMPTOMS. *)
Theorem age_105_is_not_extracted :
  let s := sessionAt COLLECTING_DEMOGRAPHICS "en" in
  let m := textMessage "I am 105 years old, male" in
  let after := worldOf (manageConversation m s (worldWith s)) in
  extractDemographics "I am 105 years old, male"
  = {| age := None; gender := Some "male" |} /\
  option_map userData (getSession (id s) after)
  = Some {| age := None; gender := Some "male" |} /\
  stageAfter m s (worldWith s) = COLLECTING_SYMPTOMS.
Proof. repeat split; reflexivity. Qed.

End Demographics.

(** ** The state machine on concrete inputs *)

Section StateMachineExamples.

(** C1 (the code at the failing input): in LANGUAGE_SELECTION the text
    "I can't breathe, emergency" contains two English emergency keywords, yet
    the message is taken as a language choice: the stage becomes
    COLLECTING_DEMOGRAPHICS, not EMERGENCY_DETECTED, and a text prompt is
    returned. *)
Theorem emergency_text_not_escalated_in_language_selection :
  let s := sessionAt LANGUAGE_SELECTION "en" in
  let m := textMessage "I can't breathe, emergency" in
  containsEmergencyKeyword "I can't breathe, emergency" (preferredLanguage s) /\
  stageAfter m s (worldWith s) = COLLECTING_DEMOGRAPHICS /\
  replyOf m s (worldWith s)
  = Some (TextResponse (Paragraphs (Localized "hello" "en")
                                   (Localized "demographics_prompt" "en"))).
Proof.
  repeat split; try reflexivity.
  exists ["emergency"; "dying"; "can't breathe"; "chest pain"; "unconscious";
          "bleeding"; "heart attack"], "emergency".
  split; [reflexivity|]. split; [left|]; reflexivity.
Qed.



(** C7, counterexample: in APPOINTMENT_BOOKING the button reply book_now
    matches no global pattern; the reply is the fixed "didn't understand"
    text and the stage stays APPOINTMENT_BOOKING, whereas the handler of that
    stage, run on the same message, completes the booking. *)
Lemma unmatched_reply_does_not_reach_stage_handler :
  let s := sessionAt APPOINTMENT_BOOKING "en" in
  let m := buttonReply "book_now" in
  setsStageGlobally m = false /\
  replyIs (replyIdOf m) "find_hospitals" = false /\
  replyIs (replyIdOf m) "call_emergency" = false /\
  replyOf m s (worldWith s) = Some (TextResponse (Literal unknownSelectionText)) /\
  stageAfter m s (worldWith s) = APPOINTMENT_BOOKING /\
  stageIn (id s) (worldOf (dispatch m s (worldWith s))) = COMPLETED /\
  valueOf (dispatch m s (worldWith s))
  = Some (TextResponse (Localized "appointment_booked" "en")).
Proof. repeat split; reflexivity. Qed.

(** C9, counterexample: a COMPLETED session that receives the button reply
    lang_en is put back into COLLECTING_DEMOGRAPHICS, and a session in
    EMERGENCY_DETECTED that receives provider_1 is moved to
    APPOINTMENT_BOOKING. *)
Lemma terminal_stage_left_by_global_reply :
  let done := sessionAt COMPLETED "en" in
  let alarm := sessionAt EMERGENCY_DETECTED "en" in
  stageAfter (buttonReply "lang_en") done (worldWith done)
  = COLLECTING_DEMOGRAPHICS /\
  stageAfter (buttonReply "provider_1") alarm (worldWith alarm)
  = APPOINTMENT_BOOKING.
Proof. split; reflexivity. Qed.


Lemma terminal_stage_kept_witness :
  let s := sessionAt COMPLETED "en" in
  let m := textMessage "thank you" in
  (exists r, replyOf m s (worldWith s) = Some r) /\
  (setsStageGlobally m = false -> stageAfter m s (worldWith s) = currentState s).
Proof.
  apply terminal_stage_kept_outside_global_replies;
    [reflexivity | right; reflexivity].
Defined.

Lemma structured_reply_witness :
  let s := sessionAt ASSESSING_SEVERITY "en" in
  let m := buttonReply "lang_ha" in
  stageAfter m s (worldWith s) = COLLECTING_DEMOGRAPHICS /\
  replyOf m s (worldWith s)
  = Some (TextResponse (Localized "demographics_prompt" "ha")).
Proof.
  exact (structured_reply_routed_by_id_only
           (buttonReply "lang_ha") (sessionAt ASSESSING_SEVERITY "en")
           (worldWith (sessionAt ASSESSING_SEVERITY "en")) eq_refl eq_refl).
Defined.


End StateMachineExamples.

(** ** What one run of the state machine does to the world *)

Section FlowEffect.

Lemma applyWrites_conversation_history (us : list (string * Updates)) :
  forall w, conversation_history (applyWrites us w) = conversation_history w.
Proof.
  induction us as [|su us IH]; intros w; [reflexivity|].
  cbn [applyWrites fold_left]. fold (applyWrites us). rewrite IH. reflexivity.
Qed.

Lemma applyWrites_trace (us : list (string * Updates)) :
  forall w, trace (applyWrites us w) = (trace w ++ map updateEvent us)%list.
Proof.
  induction us as [|su us IH]; intros w.
  - cbn. rewrite app_nil_r. reflexivity.
  - cbn [applyWrites fold_left]. fold (applyWrites us). rewrite IH.
    cbn. rewrite <- app_assoc. reflexivity.
Qed.

Lemma updateRows_keys (sid : string) (u : Updates) (rows : list Session) :
  map sessionKey (updateRows sid u rows) = map sessionKey rows.
Proof.
  unfold updateRows. rewrite map_map. apply map_ext.
  intros r. destruct (String.eqb (id r) sid); reflexivity.
Qed.

Lemma applyWrites_keys (us : list (string * Updates)) :
  forall w, map sessionKey (sessions (applyWrites us w)) = map sessionKey (sessions w).
Proof.
  induction us as [|su us IH]; intros w; [reflexivity|].
  cbn [applyWrites fold_left]. fold (applyWrites us). rewrite IH.
  apply updateRows_keys.
Qed.

(** The state machine always returns a response, and all it does to the world
    is to log its invocation and to write the session some number of times. *)
Lemma manageConversation_effect (m : Message) (s : Session) (w : World) :
  exists r us,
    manageConversation m s w
    = Returned r (applyWrites us (record (ManageConversation m s) w)).
Proof.
  run_flow. repeat break_match.
  all: first
    [ eexists _, []; reflexivity
    | eexists _, [(_, _)]; reflexivity
    | eexists _, [(_, _); (_, _)]; reflexivity
    | eexists _, [(_, _); (_, _); (_, _)]; reflexivity
    | eexists _, [(_, _); (_, _); (_, _); (_, _)]; reflexivity ].
Qed.

Lemma no_manage_in_updates (us : list (string * Updates)) :
  filter isManageConversation (map updateEvent us) = [].
Proof. induction us as [|su us IH]; [reflexivity|exact IH]. Qed.

Lemma no_dedup_in_updates (us : list (string * Updates)) :
  filter isDedupCall (map updateEvent us) = [].
Proof. induction us as [|su us IH]; [reflexivity|exact IH]. Qed.

End FlowEffect.

(** ** The ingestion pipeline *)

Section Ingestion.

Variables (freshId : string) (md : MessageData) (w : World).

Let phone := phoneOf md.

(** A delivery that carries a message id stops at the deduplication query:
    the database rejects it, the rejection is caught, and the sender gets an
    error text. *)
Lemma processUserMessage_with_id (mid : string) :
  messageId md = Some mid -> truthy (Some mid) = true ->
  exists text,
    processUserMessage freshId md w
    = Returned tt (record (SendText phone text)
                     (record (IsMessageProcessed mid phone) w)).
Proof.
  intros Hid Ht. unfold processUserMessage, bind, tryCatch.
  rewrite Hid. destruct mid as [|c r]; [discriminate|]. fold phone.
  unfold isMessageProcessed, sendErrorMessage, modify.
  eexists. reflexivity.
Qed.

(** A delivery that carries no message id. *)
Lemma processUserMessage_without_id :
  truthy (messageId md) = false ->
  exists session created r us w1,
    processUserMessage freshId md w = Returned tt w1 /\
    (created = [] \/ created = [CreateSession session]) /\
    trace w1
    = (trace w
       ++ [GetOrCreateSession phone]
       ++ created
       ++ [ManageConversation (messageFor md) session]
       ++ map updateEvent us
       ++ [SendResponse phone r; AddToHistory (id session) r])%list /\
    conversation_history w1 = conversation_history w.
Proof.
  intros Hid. unfold processUserMessage, bind, tryCatch. fold phone.
  destruct (messageId md) as [[|c r]|]; try discriminate.
  all: unfold ret at 1; cbv iota; unfold getOrCreateSession;
    destruct (getSessionByPhone phone (record (GetOrCreateSession phone) w))
      as [existing|] eqn:Hfind;
    unfold ret at 1; unfold sendResponse, addToHistory, modify;
    match goal with
    | |- context [manageConversation ?m ?s ?x] =>
        destruct (manageConversation_effect m s x) as (resp & us & Heq);
        rewrite Heq
    end;
    [ exists existing, [], resp, us
    | exists (newSession freshId phone),
        [CreateSession (newSession freshId phone)], resp, us ];
    eexists; (split; [reflexivity|]);
    (split; [(left; reflexivity) || (right; reflexivity)|]);
    cbn [record trace conversation_history];
    rewrite applyWrites_trace, applyWrites_conversation_history;
    cbn [record trace conversation_history];
    (split; [rewrite <- !app_assoc|]; reflexivity).
Qed.

(** [processUserMessage] catches everything: it always returns. *)
Lemma processUserMessage_returns :
  exists w1, processUserMessage freshId md w = Returned tt w1.
Proof.
  destruct (truthy (messageId md)) eqn:Ht.
  - destruct (messageId md) as [mid|] eqn:Hid; [|discriminate].
    destruct (processUserMessage_with_id mid Hid Ht) as (text & H).
    eexists. exact H.
  - destruct (processUserMessage_without_id Ht) as (? & ? & ? & ? & w1 & H & _).
    exists w1. exact H.
Qed.

(** One delivery without a message id: no deduplication call, no marker row,
    one run of the state machine. *)
Lemma delivery_without_id_once :
  truthy (messageId md) = false ->
  let w1 := worldOf (processUserMessage freshId md w) in
  dedupCalls w1 = dedupCalls w /\
  conversation_history w1 = conversation_history w /\
  stateMachineRuns w1 = stateMachineRuns w + 1.
Proof.
  intros Hid w1. subst w1.
  destruct (processUserMessage_without_id Hid)
    as (session & created & r & us & w1 & Hrun & Hc & Htr & Hh).
  rewrite Hrun. cbn [worldOf]. unfold dedupCalls, stateMachineRuns.
  rewrite Htr, !filter_app, no_manage_in_updates, no_dedup_in_updates.
  destruct Hc as [-> | ->]; cbn; rewrite ?app_nil_r;
    repeat split; try assumption; rewrite ?length_app; cbn; lia.
Qed.

End Ingestion.

Section Deduplication.

Variables (firstId secondId : string) (md : MessageData) (w : World).

(** C4: the deduplication does not work against the database the services
    create.  A message that carries a (non-empty) channel message id and is
    delivered twice is processed not once but never: in each delivery the
    processed-check is the first and only collaborator call before the
    failure, the database rejects its statement, and the sender is sent an
    error text; no session is loaded, created or changed, no marker is
    written, and the state machine does not run. *)
Theorem delivery_with_id_is_never_processed (mid : string) :
  messageId md = Some mid ->
  truthy (Some mid) = true ->
  let phone := phoneOf md in
  let w1 := worldOf (processUserMessage firstId md w) in
  let w2 := worldOf (processUserMessage secondId md w1) in
  (exists text1 text2,
     trace w2
     = (trace w
        ++ [IsMessageProcessed mid phone; SendText phone text1;
            IsMessageProcessed mid phone; SendText phone text2])%list) /\
  sessions w2 = sessions w /\
  conversation_history w2 = conversation_history w /\
  stateMachineRuns w1 = stateMachineRuns w /\
  stateMachineRuns w2 = stateMachineRuns w.
Proof.
  intros Hid Ht phone w1 w2.
  destruct (processUserMessage_with_id firstId md w mid Hid Ht) as (t1 & H1).
  assert (E1 : w1 = record (SendText phone t1)
                      (record (IsMessageProcessed mid phone) w))
    by (subst w1; rewrite H1; reflexivity).
  destruct (processUserMessage_with_id secondId md w1 mid Hid Ht) as (t2 & H2).
  assert (E2 : w2 = record (SendText phone t2)
                      (record (IsMessageProcessed mid phone) w1))
    by (subst w2; rewrite H2; reflexivity).
  rewrite E2, E1. unfold stateMachineRuns. cbn [record trace sessions conversation_history].
  split; [exists t1, t2; rewrite <- !app_assoc; reflexivity|].
  rewrite !filter_app, !length_app. cbn. repeat split; lia.
Qed.

(** C10: a message whose parsed data carries no channel message id (it is
    undefined or empty) is never deduplicated: neither delivery makes a
    processed-check or writes a marker, and the state machine runs once per
    delivery, redeliveries included. *)
Theorem delivery_without_id_is_always_processed :
  truthy (messageId md) = false ->
  let w1 := worldOf (processUserMessage firstId md w) in
  let w2 := worldOf (processUserMessage secondId md w1) in
  (dedupCalls w1 = dedupCalls w /\
   conversation_history w1 = conversation_history w /\
   stateMachineRuns w1 = stateMachineRuns w + 1) /\
  (dedupCalls w2 = dedupCalls w /\
   conversation_history w2 = conversation_history w /\
   stateMachineRuns w2 = stateMachineRuns w + 2).
Proof.
  intros Hid w1 w2.
  destruct (delivery_without_id_once firstId md w Hid) as (Hd1 & Hh1 & Hr1).
  destruct (delivery_without_id_once secondId md w1 Hid) as (Hd2 & Hh2 & Hr2).
  fold w1 in Hd1, Hh1, Hr1. fold w2 in Hd2, Hh2, Hr2.
  repeat split; try assumption; try congruence; lia.
Qed.

End Deduplication.

Section DeduplicationExamples.

Lemma delivery_with_id_witness :
  let md := textData (Some "wamid.1") "hello" in
  let w1 := worldOf (processUserMessage "sess_1" md emptyWorld) in
  let w2 := worldOf (processUserMessage "sess_2" md w1) in
  sessions w2 = [] /\ stateMachineRuns w1 = 0 /\ stateMachineRuns w2 = 0.
Proof.
  pose proof (delivery_with_id_is_never_processed "sess_1" "sess_2"
                (textData (Some "wamid.1") "hello") emptyWorld "wamid.1"
                eq_refl eq_refl) as (_ & Hs & _ & H1 & H2).
  split; [exact Hs|]. split; [exact H1|exact H2].
Defined.

Lemma delivery_without_id_witness :
  let md := textData None "hello" in
  let w1 := worldOf (processUserMessage "sess_1" md emptyWorld) in
  let w2 := worldOf (processUserMessage "sess_2" md w1) in
  stateMachineRuns w2 = 2 /\ dedupCalls w2 = 0 /\ conversation_history w2 = [].
Proof.
  pose proof (delivery_without_id_is_always_processed "sess_1" "sess_2"
                (textData None "hello") emptyWorld eq_refl)
    as (_ & Hd & Hh & Hr).
  split; [exact Hr|]. split; [exact Hd|exact Hh].
Defined.

End DeduplicationExamples.

(** ** Payload validation *)

Section Validation.

Variable p : option Payload.

(** The validator fails exactly on the three grounds. *)
Lemma validation_fails_iff :
  isValid (validateWebhookPayload p) = false
  <-> noMessageType p \/ noUserKey p \/ badPhoneFormat p.
Proof.
  destruct p as [raw|]; cbn; [|tauto].
  destruct (truthy (payloadType raw)) eqn:T1;
    destruct (truthy (inner raw innerType)) eqn:T2;
    destruct (resolvePhone raw) as [n|] eqn:P; cbn;
    try destruct n as [|c r]; cbn;
    try destruct (phoneFormatOk (String c r)) eqn:F; cbn.
  all: split; [intros H|intros [[H1 H2]|[H|(n & H1 & H2 & H3)]]];
    try discriminate; try reflexivity; auto.
  all: try (inversion H1; subst; cbn in *; congruence).
  all: try (right; right; eexists; repeat split; eassumption || reflexivity).
Qed.

Variables (freshId : string) (w : World).

(** C8: [processWebhook] throws an "Invalid payload: ..." error, leaving the
    world exactly as it was (nothing has been called, no session touched),
    exactly when the payload has no resolvable message type, or no resolvable
    phone number, or a phone number that fails the format check; otherwise
    validation passes and the webhook is processed to a normal return. *)
Theorem invalid_payload_rejected_exactly :
  ((exists e, isInvalidPayloadError e /\ processWebhook freshId p w = Thrown e w)
   <-> noMessageType p \/ noUserKey p \/ badPhoneFormat p) /\
  (isValid (validateWebhookPayload p) = true
   <-> ~ (noMessageType p \/ noUserKey p \/ badPhoneFormat p)) /\
  (isValid (validateWebhookPayload p) = true ->
   exists r w', processWebhook freshId p w = Returned r w').
Proof.
  assert (Hvalid : isValid (validateWebhookPayload p) = true ->
                   exists r w', processWebhook freshId p w = Returned r w').
  { intros V. unfold processWebhook, tryCatch. rewrite V. cbn [negb].
    destruct p as [raw|]; [|discriminate]. cbn [parseIncomingMessage].
    destruct (isStatusMessage raw); [do 2 eexists; reflexivity|].
    unfold bind.
    match goal with
    | |- context [processUserMessage ?f ?d ?x] =>
        destruct (processUserMessage_returns f d x) as (w1 & Hrun); rewrite Hrun
    end.
    do 2 eexists. reflexivity. }
  split; [|split; [|exact Hvalid]].
  - rewrite <- validation_fails_iff. split.
    + intros (e & _ & Hthrow).
      destruct (isValid (validateWebhookPayload p)) eqn:V; [|reflexivity].
      destruct (Hvalid eq_refl) as (r & w' & Hret). congruence.
    + intros V. unfold processWebhook, tryCatch. rewrite V. cbn [negb].
      eexists. split; [eexists; reflexivity|reflexivity].
  - rewrite <- validation_fails_iff.
    destruct (isValid (validateWebhookPayload p)); split; intros H;
      congruence || (exfalso; apply H; reflexivity) || reflexivity.
Qed.

End Validation.

Section ValidationExamples.

(** A payload without a message type and with a phone number that starts
    with 0 is rejected with both complaints and nothing else happens. *)
Example payload_without_type_rejected :
  processWebhook "sess_1"
    (Some {| payloadType := None; payloadId := Some "wamid.7";
             mobile := Some "0123"; text := Some "hello"; payload := None |})
    emptyWorld
  = Thrown
      (Error "Invalid payload: Missing message type, Invalid phone number format")
      emptyWorld.
Proof. reflexivity. Qed.

(** A well-formed text payload without a message id from a new phone number
    is processed: a session is created and ends up in LANGUAGE_SELECTION. *)
Example hello_from_new_user_accepted :
  let after := worldOf (processWebhook "sess_1"
                          (Some (textPayload None "hello"))
                          emptyWorld) in
  isValid (validateWebhookPayload (Some (textPayload None "hello"))) = true /\
  storedState "sess_1" after = Some LANGUAGE_SELECTION /\
  stateMachineRuns after = 1.
Proof. repeat split; reflexivity. Qed.

(** The same payload with a message id is accepted by the webhook, but the
    sender only gets an error text: no session is created and the state
    machine is not run. *)
Example hello_with_id_answered_with_error_text :
  exists text,
    processWebhook "sess_1" (Some (textPayload (Some "wamid.1") "hello"))
      emptyWorld
    = Returned (Success (Some "wamid.1"))
        {| sessions := [];
           conversation_history := [];
           trace := [ IsMessageProcessed "wamid.1" "2348012345678";
                      SendText "2348012345678" text ] |}.
Proof. eexists. reflexivity. Qed.

End ValidationExamples.

(** ** Letter case *)

Section LetterCase.

Lemma lowerChar_idempotent (c : ascii) : lowerChar (lowerChar c) = lowerChar c.
Proof. destruct c as [[] [] [] [] [] [] [] []]; reflexivity. Qed.

Lemma toLowerCase_idempotent (t : string) :
  toLowerCase (toLowerCase t) = toLowerCase t.
Proof.
  induction t as [|c r IH]; [reflexivity|].
  cbn [toLowerCase]. rewrite lowerChar_idempotent, IH. reflexivity.
Qed.

Lemma isDigit_lowerChar (c : ascii) : isDigit (lowerChar c) = isDigit c.
Proof. destruct c as [[] [] [] [] [] [] [] []]; reflexivity. Qed.

Lemma isWordChar_lowerChar (c : ascii) : isWordChar (lowerChar c) = isWordChar c.
Proof. destruct c as [[] [] [] [] [] [] [] []]; reflexivity. Qed.

Lemma digit_lowerChar (c : ascii) : isDigit c = true -> lowerChar c = c.
Proof. destruct c as [[] [] [] [] [] [] [] []]; intros H; try reflexivity; discriminate. Qed.

Lemma wordBoundary_lower (a b : option ascii) :
  Regex.wordBoundary (option_map lowerChar a) (option_map lowerChar b)
  = Regex.wordBoundary a b.
Proof.
  unfold Regex.wordBoundary.
  destruct a, b; cbn; rewrite ?isWordChar_lowerChar; reflexivity.
Qed.

Lemma head_toLowerCase (t : string) :
  head (toLowerCase t) = option_map lowerChar (head t).
Proof. destruct t; reflexivity. Qed.

Lemma wordBoundary_lower_left (a : ascii) (b : option ascii) :
  Regex.wordBoundary (Some (lowerChar a)) (option_map lowerChar b)
  = Regex.wordBoundary (Some a) b.
Proof. exact (wordBoundary_lower (Some a) b). Qed.

Lemma wordBoundary_lower_right (a b : ascii) :
  Regex.wordBoundary (Some a) (Some (lowerChar b))
  = Regex.wordBoundary (Some a) (Some b).
Proof.
  unfold Regex.wordBoundary, Regex.isWordOpt.
  rewrite isWordChar_lowerChar. reflexivity.
Qed.

Lemma ageMatchHere_lower (prev : option ascii) (t : string) :
  ageMatchHere (option_map lowerChar prev) (toLowerCase t) = ageMatchHere prev t.
Proof.
  unfold ageMatchHere.
  rewrite head_toLowerCase, wordBoundary_lower.
  destruct (Regex.wordBoundary prev (head t)); [|reflexivity].
  destruct t as [|a r]; [reflexivity|]. cbn [toLowerCase].
  rewrite isDigit_lowerChar. destruct (isDigit a) eqn:Da; [|reflexivity].
  rewrite (digit_lowerChar a Da).
  destruct r as [|b r']; [reflexivity|]. cbn [toLowerCase].
  rewrite isDigit_lowerChar, head_toLowerCase, wordBoundary_lower_left,
    wordBoundary_lower_right.
  destruct (isDigit b) eqn:Db; [|reflexivity].
  rewrite (digit_lowerChar b Db). reflexivity.
Qed.

Lemma ageMatch_lower (t : string) :
  forall prev,
    ageMatch (option_map lowerChar prev) (toLowerCase t) = ageMatch prev t.
Proof.
  induction t as [|c r IH]; intros prev; [reflexivity|].
  cbn [ageMatch toLowerCase].
  change (String (lowerChar c) (toLowerCase r)) with (toLowerCase (String c r)).
  rewrite ageMatchHere_lower.
  destruct (ageMatchHere prev (String c r)); [reflexivity|].
  exact (IH (Some c)).
Qed.

(** The classifiers of the triage flow and the language detector give the
    same answer on a text and on its lower-cased form: the case of ASCII
    letters never matters. *)
Theorem classifiers_ignore_letter_case (t language : string) :
  checkForEmergency (Some (toLowerCase t)) language
  = checkForEmergency (Some t) language /\
  extractSymptoms (toLowerCase t) = extractSymptoms t /\
  extractDemographics (toLowerCase t) = extractDemographics t /\
  detectLanguage (toLowerCase t) = detectLanguage t.
Proof.
  repeat split.
  - unfold checkForEmergency. rewrite toLowerCase_idempotent. reflexivity.
  - unfold extractSymptoms. rewrite toLowerCase_idempotent. reflexivity.
  - unfold extractDemographics. rewrite toLowerCase_idempotent.
    change (ageMatch None (toLowerCase t))
      with (ageMatch (option_map lowerChar None) (toLowerCase t)).
    rewrite ageMatch_lower. reflexivity.
  - unfold detectLanguage, scoreEntries. rewrite toLowerCase_idempotent.
    reflexivity.
Qed.

End LetterCase.

(** ** The classifiers *)

Section Classifiers.



Lemma symptomKeywords_NoDup : NoDup symptomKeywords.
Proof.
  unfold symptomKeywords.
  repeat (constructor; [cbn; intuition discriminate|]). constructor.
Qed.

(** [extractSymptoms] reports exactly the vocabulary words that occur in the
    lower-cased text, each at most once however often it occurs, so never
    more than 13 symptoms, and every reported symptom is marked mild with
    unknown duration. *)
Theorem extracted_symptoms_are_the_vocabulary_hits (t : string) :
  (forall name,
     In name (map symptomName (extractSymptoms t))
     <-> In name symptomKeywords /\ includes (toLowerCase t) name = true) /\
  NoDup (map symptomName (extractSymptoms t)) /\
  List.length (extractSymptoms t) <= 13 /\
  Forall (fun s => symptomSeverity s = "mild" /\ symptomDuration s = "unknown")
         (extractSymptoms t).
Proof.
  unfold extractSymptoms. rewrite map_map. cbn [symptomName]. rewrite map_id.
  split; [|split; [|split]].
  - intros name. rewrite filter_In. tauto.
  - apply NoDup_filter. exact symptomKeywords_NoDup.
  - rewrite length_map.
    exact (filter_length_le _ symptomKeywords).
  - apply Forall_forall. intros s Hs. apply in_map_iff in Hs.
    destruct Hs as (n & <- & _). split; reflexivity.
Qed.

Lemma includes_cons (c : ascii) (r sub : string) :
  includes r sub = true -> includes (String c r) sub = true.
Proof. intros H. cbn [includes]. rewrite H. apply orb_true_r. Qed.

(** Every text that contains "female" contains "male". *)
Lemma includes_female_male (t : string) :
  includes t "female" = true -> includes t "male" = true.
Proof.
  induction t as [|c r IH]; [discriminate|].
  cbn [includes]. intros H. apply orb_true_iff in H. destruct H as [H|H].
  - destruct r as [|c2 r2]; [apply andb_true_iff in H; destruct H; discriminate|].
    apply includes_cons, includes_cons.
    cbn [startsWith] in H.
    apply andb_true_iff in H. destruct H as [_ H].
    apply andb_true_iff in H. destruct H as [_ H].
    destruct r2 as [|c3 r3]; [discriminate|].
    cbn [includes]. apply orb_true_iff. left. exact H.
  - apply orb_true_iff. right. exact (IH H).
Qed.

(** The gender recorded from a text: "female" exactly when the lower-cased
    text contains "female"; "male" exactly when it contains "male" but not
    "female"; none exactly when it does not contain "male" (and then not
    "female" either). *)
Theorem gender_is_decided_by_female_then_male (t : string) :
  let lowerText := toLowerCase t in
  let g := gender (extractDemographics t) in
  (g = Some "female" <-> includes lowerText "female" = true) /\
  (g = Some "male" <->
   includes lowerText "male" = true /\ includes lowerText "female" = false) /\
  (g = None <-> includes lowerText "male" = false).
Proof.
  cbn zeta. unfold extractDemographics. cbn [gender].
  pose proof (includes_female_male (toLowerCase t)) as Hfm.
  destruct (includes (toLowerCase t) "female") eqn:F;
    destruct (includes (toLowerCase t) "male") eqn:Ma; cbn.
  all: repeat split; intros; try discriminate; try reflexivity; try tauto.
  all: try (destruct H; discriminate).
  all: specialize (Hfm eq_refl); discriminate.
Qed.

Lemma extracted_age_witness :
  age (extractDemographics "I am 25 years old, male") = Some 25 /\ 1 <= 25 <= 99.
Proof.
  split; [reflexivity|].
  exact (extracted_age_below_100 "I am 25 years old, male" 25 eq_refl).
Defined.

(** [detectLanguage] answers one of the four dictionary languages or
    "english", and it answers "english" exactly when no dictionary scores a
    hit. *)
Theorem detectLanguage_range (t : string) :
  In (detectLanguage t) ["pidgin"; "yoruba"; "igbo"; "hausa"; "english"] /\
  (detectLanguage t = "english"
   <-> Forall (fun e => snd e = 0) (scoreEntries t)).
Proof.
  pose proof (scoreEntries_keys t) as Hkeys.
  unfold detectLanguage.
  destruct (scoreEntries t) as [|e es] eqn:Hes; [discriminate|].
  destruct (reduceHighest_last_highest es e) as (pre & post & Heq & Hpre & Hpost).
  destruct (reduceHighest e es) as [lang n] eqn:Hred. cbn [fst snd] in *.
  assert (Hin : In lang ["pidgin"; "yoruba"; "igbo"; "hausa"]).
  { rewrite <- Hkeys, Heq, map_app. apply in_or_app. right. left. reflexivity. }
  destruct n as [|n]; cbn.
  - split; [do 4 right; left; reflexivity|].
    split; [intros _|reflexivity].
    rewrite Heq. apply Forall_app. split.
    + eapply Forall_impl; [|exact Hpre]. cbn. intros a Ha. lia.
    + constructor; [reflexivity|].
      eapply Forall_impl; [|exact Hpost]. cbn. intros a Ha. lia.
  - split.
    + cbn in Hin. intuition.
    + split.
      * intros Heng. subst lang. cbn in Hin. intuition discriminate.
      * intros Hall. rewrite Heq in Hall. apply Forall_app in Hall.
        destruct Hall as [_ Hall]. inversion Hall as [|? ? Hn _]. discriminate.
Qed.

End Classifiers.

(** ** More on the state machine *)

(** Reads the session row back from the store after the writes. *)
Ltac read_row H :=
  unfold rowAfter; cbn [worldOf valueOf];
  rewrite ?getSession_writeSession, ?getSession_record, ?H; cbn.

Section StageHandlers.

Variables (m : Message) (s : Session) (w : World).

Hypothesis loaded : getSession (id s) w = Some s.

Lemma find_first {A} (f : A -> bool) (pre post : list A) (x : A) :
  Forall (fun a => f a = false) pre -> f x = true ->
  find f (pre ++ x :: post) = Some x.
Proof.
  intros Hpre Hx. induction Hpre as [|a pre Ha _ IH]; cbn.
  - rewrite Hx. reflexivity.
  - rewrite Ha. exact IH.
Qed.

(** In LANGUAGE_SELECTION a free-text message always moves the session to
    COLLECTING_DEMOGRAPHICS and stores one of the five configured language
    codes: the code of the first language name, in the order english, pidgin,
    yoruba, hausa, igbo, that the lower-cased text contains, and "en" when it
    contains none.  The stored code always has an emergency keyword list of
    its own, and the reply is the greeting and demographics prompt of that
    language. *)
Theorem language_chosen_by_first_name_in_text (t : string) :
  freeText m t ->
  currentState s = LANGUAGE_SELECTION ->
  exists code,
    stageAfter m s w = COLLECTING_DEMOGRAPHICS /\
    option_map preferredLanguage (rowAfter m s w) = Some code /\
    In code ["en"; "pcm"; "yo"; "ha"; "ig"] /\
    (exists kws, keywordsProperty code = Own kws) /\
    replyOf m s w
    = Some (TextResponse (Paragraphs (Localized "hello" code)
                                     (Localized "demographics_prompt" code))) /\
    (forall pre name c post,
       languageMap = (pre ++ (name, c) :: post)%list ->
       Forall (fun e => includes (toLowerCase t) (fst e) = false) pre ->
       includes (toLowerCase t) name = true ->
       code = c) /\
    (Forall (fun e => includes (toLowerCase t) (fst e) = false) languageMap ->
     code = "en").
Proof.
  intros (B & L & T) St.
  unfold rowAfter. run_flow. rewrite B, L, T in *. cbn [orb].
  destruct (conversationState s) as [[]|] eqn:E; try discriminate.
  destruct (find (fun e => includes (toLowerCase t) (fst e)) languageMap)
    as [[name code]|] eqn:F.
  - exists code. split; [read_stage loaded; reflexivity|].
    split; [read_row loaded; reflexivity|].
    pose proof (find_some _ _ F) as [Hin _].
    assert (Hcode : In code ["en"; "pcm"; "yo"; "ha"; "ig"]).
    { cbn in Hin.
      repeat (destruct Hin as [Hin|Hin]; [inversion Hin; cbn; tauto|]).
      contradiction. }
    split; [exact Hcode|].
    split.
    { cbn in Hcode.
      repeat (destruct Hcode as [<-|Hcode]; [eexists; reflexivity|]).
      contradiction. }
    split; [reflexivity|]. split.
    + intros pre name' c post Hmap Hpre Hname.
      rewrite Hmap in F.
      rewrite (find_first (fun e => includes (toLowerCase t) (fst e))
                 pre post (name', c) Hpre Hname) in F.
      congruence.
    + intros Hall. rewrite Forall_forall in Hall.
      pose proof (find_some _ _ F) as [Hin' Hinc].
      specialize (Hall _ Hin'). cbn in Hall, Hinc. congruence.
  - exists "en". split; [read_stage loaded; reflexivity|].
    split; [read_row loaded; reflexivity|].
    split; [left; reflexivity|].
    split; [eexists; reflexivity|].
    split; [reflexivity|]. split; [|reflexivity].
    intros pre name' c post Hmap Hpre Hname.
    assert (Hin : In (name', c) languageMap).
    { rewrite Hmap. apply in_or_app. right. left. reflexivity. }
    apply (find_none _ _ F) in Hin. cbn in Hin. congruence.
Qed.

(** A message that carries no text at all (a text payload without a text
    field) and is not a structured reply is answered with an error text and
    changes nothing in the store: the generic error in INITIAL and
    LANGUAGE_SELECTION, the demographics clarification in
    COLLECTING_DEMOGRAPHICS, the symptom error in COLLECTING_SYMPTOMS. *)
Theorem message_without_text_changes_nothing :
  notReply m ->
  original m = None ->
  match currentState s with
  | INITIAL | LANGUAGE_SELECTION =>
      manageConversation m s w
      = Returned (TextResponse (Localized "general_error" (languageOrEn s)))
                 (record (ManageConversation m s) w)
  | COLLECTING_DEMOGRAPHICS =>
      manageConversation m s w
      = Returned (TextResponse (Localized "demographics_clarification"
                                          (preferredLanguage s)))
                 (record (ManageConversation m s) w)
  | COLLECTING_SYMPTOMS =>
      manageConversation m s w
      = Returned (TextResponse (Localized "symptom_collection_error"
                                          (preferredLanguage s)))
                 (record (ManageConversation m s) w)
  | _ => True
  end.
Proof.
  intros (B & L) T.
  unfold rowAfter. run_flow. rewrite B, L, T. cbn [orb].
  destruct (conversationState s) as [[]|] eqn:E; try exact I.
  all: unfold checkForEmergency;
    repeat break_match; try discriminate; reflexivity.
Qed.

(** In the three late stages the text of a message plays no role, it may
    even be missing: ASSESSING_SEVERITY stores the assessment, moves to
    PROVIDER_MATCHING and returns the triage results; PROVIDER_MATCHING
    offers the provider list again and writes nothing; APPOINTMENT_BOOKING
    moves to COMPLETED and confirms the booking. *)
Theorem late_stages_ignore_message_text :
  notReply m ->
  match currentState s with
  | ASSESSING_SEVERITY =>
      stageAfter m s w = PROVIDER_MATCHING /\
      option_map triageData (rowAfter m s w)
      = Some {| symptoms := symptoms (triageData s);
                assessed := Some mockAssessment |} /\
      replyOf m s w = Some (TriageResultsResponse mockAssessment findMockProviders)
  | PROVIDER_MATCHING =>
      manageConversation m s w
      = Returned (ListResponse
                    (Localized "select_provider" (preferredLanguage s))
                    "Select Provider" "Available Providers"
                    (GupshupService.triageResultRows findMockProviders))
                 (record (ManageConversation m s) w)
  | APPOINTMENT_BOOKING =>
      stageAfter m s w = COMPLETED /\
      replyOf m s w
      = Some (TextResponse (Localized "appointment_booked" (preferredLanguage s)))
  | _ => True
  end.
Proof.
  intros (B & L).
  unfold rowAfter. run_flow. rewrite B, L. cbn [orb].
  destruct (conversationState s) as [[]|] eqn:E; try exact I.
  - repeat split; [read_stage loaded|read_row loaded]; reflexivity.
  - reflexivity.
  - repeat split. read_stage loaded. reflexivity.
Qed.


End StageHandlers.

Section StructuredReplies.

Variables (s : Session) (w : World).

Hypothesis loaded : getSession (id s) w = Some s.

Lemma startsWith_append (pre x : string) : startsWith (pre ++ x) pre = true.
Proof.
  induction pre as [|c pre IH]; [destruct x; reflexivity|].
  cbn. rewrite Ascii.eqb_refl. exact IH.
Qed.

Lemma drop_append (pre x : string) : drop (String.length pre) (pre ++ x) = x.
Proof. induction pre as [|c pre IH]; [reflexivity|exact IH]. Qed.

(** What the state machine does with a reply lang_<x>. *)
Lemma language_reply_outcome (m : Message) (x : string) :
  isButtonReply m || isListReply m = true ->
  replyIdOf m = Some ("lang_" ++ x) ->
  manageConversation m s w
  = Returned (TextResponse (Localized "demographics_prompt" x))
      (writeSession (id s)
         {| newConversationState := Some COLLECTING_DEMOGRAPHICS;
            newPreferredLanguage := Some x;
            newUserData := None; newTriageData := None;
            newSelectedProvider := None |}
         (record (ManageConversation m s) w)).
Proof.
  intros R Hid. run_flow. rewrite R, Hid.
  unfold replyStartsWith, stripPrefix.
  rewrite (startsWith_append "lang_" x), (drop_append "lang_" x).
  reflexivity.
Qed.

(** What the state machine does with a typed language choice. *)
Lemma language_text_outcome (m : Message) (t : string) :
  freeText m t ->
  currentState s = LANGUAGE_SELECTION ->
  let code :=
    match find (fun e => includes (toLowerCase t) (fst e)) languageMap with
    | Some (_, code) => code
    | None => "en"
    end in
  manageConversation m s w
  = Returned (TextResponse (Paragraphs (Localized "hello" code)
                                       (Localized "demographics_prompt" code)))
      (writeSession (id s)
         {| newConversationState := Some COLLECTING_DEMOGRAPHICS;
            newPreferredLanguage := Some code;
            newUserData := None; newTriageData := None;
            newSelectedProvider := None |}
         (record (ManageConversation m s) w)).
Proof.
  intros (B & L & T) St code. subst code.
  run_flow. rewrite B, L, T. cbn [orb].
  destruct (conversationState s) as [[]|] eqn:E; try discriminate.
  reflexivity.
Qed.

(** A structured reply whose id is lang_ followed by a remainder that fits
    the preferredLanguage column (at most 10 bytes, hence at most 10
    characters) stores that remainder verbatim as the preferred language,
    unchecked (it may be empty, or no language the service knows), sets
    COLLECTING_DEMOGRAPHICS and asks for the demographics in that language,
    whatever the stage was. *)
Theorem language_reply_stores_suffix_unchecked (m : Message) (x : string) :
  isButtonReply m || isListReply m = true ->
  replyIdOf m = Some ("lang_" ++ x) ->
  (String.length x <= 10)%nat ->
  stageAfter m s w = COLLECTING_DEMOGRAPHICS /\
  option_map preferredLanguage (rowAfter m s w) = Some x /\
  replyOf m s w = Some (TextResponse (Localized "demographics_prompt" x)).
Proof.
  intros R Hid _. unfold stageAfter, rowAfter, replyOf.
  rewrite (language_reply_outcome m x R Hid).
  repeat split; [read_stage loaded|read_row loaded]; reflexivity.
Qed.

(** Every button of the language menu sent with the welcome message has the
    id lang_<code> of a language with its own emergency keyword list;
    pressing it stores that code, and typing the button's title as free text
    in LANGUAGE_SELECTION stores the same code. *)
Theorem language_buttons_agree_with_typed_names (bid title : string)
  (pressed typed : Message) :
  In (bid, title) GupshupService.languageSelectionButtons ->
  isButtonReply pressed = true ->
  buttonId pressed = Some bid ->
  freeText typed title ->
  currentState s = LANGUAGE_SELECTION ->
  exists code kws,
    bid = "lang_" ++ code /\
    keywordsProperty code = Own kws /\
    option_map preferredLanguage (rowAfter pressed s w) = Some code /\
    option_map preferredLanguage (rowAfter typed s w) = Some code.
Proof.
  intros Hin Hb Hid Htyped St.
  assert (R : isButtonReply pressed || isListReply pressed = true)
    by (rewrite Hb; reflexivity).
  unfold rowAfter.
  rewrite (language_text_outcome typed title Htyped St). cbv zeta.
  cbn in Hin.
  repeat (destruct Hin as [Hin|Hin];
          [inversion Hin; subst bid title;
           match type of Hid with
           | _ = Some (String "l" (String "a" (String "n" (String "g"
                        (String "_" ?code))))) =>
               exists code;
               rewrite (language_reply_outcome pressed code R)
                 by (unfold replyIdOf; rewrite Hid; reflexivity)
           end;
           eexists; split; [reflexivity|]; split; [reflexivity|];
           split; read_row loaded; reflexivity|]).
  contradiction.
Qed.

(** A structured reply whose id is provider_ followed by an id selects that
    provider whatever the stage was: the session moves to
    APPOINTMENT_BOOKING and the booking buttons are offered for the provider
    with exactly that id.  Nothing but the stage is written to the row: the
    selected provider is not stored. *)
Theorem provider_reply_selects_that_provider (m : Message) (x : string) :
  isButtonReply m || isListReply m = true ->
  replyIdOf m = Some ("provider_" ++ x) ->
  stageAfter m s w = APPOINTMENT_BOOKING /\
  rowAfter m s w
  = Some (applyUpdates
            {| newConversationState := Some APPOINTMENT_BOOKING;
               newPreferredLanguage := None; newUserData := None;
               newTriageData := None; newSelectedProvider := None |} s) /\
  exists p buttons,
    replyOf m s w
    = Some (ButtonsResponse (ProviderInfo p (preferredLanguage s)) buttons) /\
    providerId p = x /\
    map fst buttons = ["book_now"; "call_provider"; "get_directions"].
Proof.
  intros R Hid. unfold rowAfter. run_flow. rewrite R, Hid.
  unfold replyStartsWith, stripPrefix.
  change (startsWith ("provider_" ++ x) "lang_") with false. cbv iota.
  rewrite (startsWith_append "provider_" x), (drop_append "provider_" x).
  split; [read_stage loaded; reflexivity|].
  split; [read_row loaded; reflexivity|].
  do 2 eexists. repeat split.
Qed.

Lemma firstn_subset {A} (n : nat) (l : list A) (x : A) :
  In x (firstn n l) -> In x l.
Proof.
  revert l. induction n as [|n IH]; intros [|a l] H; try contradiction.
  destruct H as [H|H]; [left; exact H|right; exact (IH _ H)].
Qed.

(** Every row of a provider list, be it the one [handleProviderMatching]
    returns or the one [sendTriageResults] builds from any providers, carries
    an id that, sent back as a list reply, selects the provider the row was
    made from. *)
Theorem provider_rows_lead_to_their_provider (providers : list Provider)
  (row : ListRow) (m : Message) :
  In row (GupshupService.triageResultRows providers) ->
  isListReply m = true ->
  replyIdOf m = Some (rowId row) ->
  In (rowProvider row) providers /\
  stageAfter m s w = APPOINTMENT_BOOKING /\
  exists p buttons,
    replyOf m s w
    = Some (ButtonsResponse (ProviderInfo p (preferredLanguage s)) buttons) /\
    providerId p = providerId (rowProvider row).
Proof.
  intros Hin Hl Hid.
  unfold GupshupService.triageResultRows in Hin.
  apply in_map_iff in Hin. destruct Hin as (p0 & <- & Hp0).
  cbn [rowId rowProvider] in *.
  split; [exact (firstn_subset _ _ _ Hp0)|].
  assert (R : isButtonReply m || isListReply m = true)
    by (rewrite Hl; apply orb_true_r).
  unfold rowAfter. run_flow. rewrite R, Hid.
  unfold replyStartsWith, stripPrefix.
  change (startsWith ("provider_" ++ providerId p0) "lang_") with false.
  cbv iota.
  rewrite (startsWith_append "provider_" (providerId p0)),
    (drop_append "provider_" (providerId p0)).
  split; [read_stage loaded; reflexivity|].
  do 2 eexists. split; reflexivity.
Qed.

(** None of the three buttons offered after a provider selection (book_now,
    call_provider, get_directions) is recognised when it is pressed: in every
    stage the answer is the fixed "didn't understand" text and the store is
    left untouched, so no button press completes a booking. *)
Theorem booking_buttons_are_not_handled (providerChoice pressed : Message)
  (bid title : string) (pi : MessageText) (buttons : list (string * string)) :
  replyOf providerChoice s w = Some (ButtonsResponse pi buttons) ->
  In (bid, title) buttons ->
  isButtonReply pressed = true ->
  buttonId pressed = Some bid ->
  forall s' w',
    manageConversation pressed s' w'
    = Returned (TextResponse (Literal unknownSelectionText))
               (record (ManageConversation pressed s') w').
Proof.
  intros Hreply Hin Hb Hid s' w'.
  assert (Hbid : In bid ["book_now"; "call_provider"; "get_directions"]).
  { revert Hreply. run_flow. repeat break_match; cbn; intros Hreply;
      inversion Hreply; subst; try discriminate.
    apply (in_map fst) in Hin. exact Hin. }
  run_flow. rewrite Hb. cbn [orb]. unfold replyIdOf. rewrite Hid.
  cbn in Hbid.
  repeat (destruct Hbid as [<-|Hbid]; [reflexivity|]). contradiction.
Qed.

End StructuredReplies.

Section Isolation.

Variables (m : Message) (s : Session) (w : World).

Lemma keywordsProperty_inherited (language : string) :
  In language objectPrototypeKeys -> keywordsProperty language = Inherited.
Proof.
  intros H. cbn in H.
  repeat (destruct H as [<-|H]; [reflexivity|]). contradiction.
Qed.

(** A session whose preferred language is the name of a property that every
    JavaScript object inherits (a reply lang_constructor stores such a name)
    cannot get through symptom collection by text: the keyword lookup yields
    something that is not a list, the emergency check throws, and every
    message that is not a structured reply is answered with the symptom error
    text while nothing is written. *)
Theorem inherited_language_blocks_symptom_collection :
  In (preferredLanguage s) objectPrototypeKeys ->
  currentState s = COLLECTING_SYMPTOMS ->
  notReply m ->
  manageConversation m s w
  = Returned (TextResponse (Localized "symptom_collection_error"
                                      (preferredLanguage s)))
             (record (ManageConversation m s) w).
Proof.
  intros Hin St (B & L).
  run_flow. rewrite B, L. cbn [orb].
  destruct (conversationState s) as [[]|] eqn:E; try discriminate.
  unfold checkForEmergency. rewrite (keywordsProperty_inherited _ Hin).
  destruct (original m); reflexivity.
Qed.

Lemma filter_others_updateRows (sid : string) (u : Updates) (rows : list Session) :
  filter (fun r => negb (String.eqb (id r) sid)) (updateRows sid u rows)
  = filter (fun r => negb (String.eqb (id r) sid)) rows.
Proof.
  induction rows as [|r rows IH]; [reflexivity|].
  cbn [updateRows map]. fold (updateRows sid u rows).
  destruct (String.eqb (id r) sid) eqn:E; cbn [filter].
  - change (id (applyUpdates u r)) with (id r). rewrite E. exact IH.
  - rewrite E. cbn [negb]. rewrite IH. reflexivity.
Qed.

Lemma filter_others_applyWrites (sid : string) (us : list (string * Updates)) :
  Forall (fun su => fst su = sid) us ->
  forall w0,
    filter (fun r => negb (String.eqb (id r) sid)) (sessions (applyWrites us w0))
    = filter (fun r => negb (String.eqb (id r) sid)) (sessions w0).
Proof.
  induction 1 as [|su us Hsu _ IH]; intros w0; [reflexivity|].
  cbn [applyWrites fold_left]. fold (applyWrites us). rewrite IH, Hsu.
  apply filter_others_updateRows.
Qed.

(** Every write of a run of the state machine goes to the session it was
    given. *)
Lemma manageConversation_writes_own_session :
  exists r us,
    manageConversation m s w
    = Returned r (applyWrites us (record (ManageConversation m s) w)) /\
    Forall (fun su => fst su = id s) us.
Proof.
  run_flow. repeat break_match.
  all: first
    [ eexists _, []; split; [reflexivity|constructor]
    | eexists _, [(_, _)]; split; [reflexivity|repeat constructor]
    | eexists _, [(_, _); (_, _)]; split; [reflexivity|repeat constructor]
    | eexists _, [(_, _); (_, _); (_, _)];
      split; [reflexivity|repeat constructor]
    | eexists _, [(_, _); (_, _); (_, _); (_, _)];
      split; [reflexivity|repeat constructor] ].
Qed.

(** One run of the state machine, on any message and in any stage, always
    returns a reply, leaves every row of every other session exactly as it
    was, neither adds nor removes a session, keeps the id and phone number of
    every row, and never touches the processed-message markers. *)
Theorem state_machine_touches_only_its_session :
  let after := worldOf (manageConversation m s w) in
  (exists r, replyOf m s w = Some r) /\
  filter (fun r => negb (String.eqb (id r) (id s))) (sessions after)
  = filter (fun r => negb (String.eqb (id r) (id s))) (sessions w) /\
  map sessionKey (sessions after) = map sessionKey (sessions w) /\
  conversation_history after = conversation_history w.
Proof.
  cbv zeta. unfold replyOf.
  destruct manageConversation_writes_own_session as (r & us & Hrun & Hown).
  rewrite Hrun. cbn [worldOf valueOf].
  split; [exists r; reflexivity|]. split; [|split].
  - rewrite (filter_others_applyWrites _ _ Hown). reflexivity.
  - rewrite applyWrites_keys. reflexivity.
  - rewrite applyWrites_conversation_history. reflexivity.
Qed.

End Isolation.

(** ** Sessions over many deliveries *)

Section SessionStore.

Lemma find_none_Forall {A} (f : A -> bool) (l : list A) :
  find f l = None -> Forall (fun a => f a = false) l.
Proof.
  intros H. apply Forall_forall. intros a Ha. exact (find_none _ _ H _ Ha).
Qed.

(** [getOrCreateSession] returns a session of the asked phone number that is
    afterwards the one found under that number.  If a session was stored
    under the number it is returned and no row is added; otherwise one row is
    appended: a session in INITIAL with language "en" and empty data.  A
    second call returns the same session and adds nothing.  The marker table
    is not touched. *)
Theorem getOrCreateSession_creates_at_most_once (firstId secondId phone : string)
  (w : World) :
  exists session w1,
    getOrCreateSession firstId phone w = Returned session w1 /\
    Model.phoneNumber session = phone /\
    getSessionByPhone phone w1 = Some session /\
    match getSessionByPhone phone w with
    | Some existing => session = existing /\ sessions w1 = sessions w
    | None =>
        session = newSession firstId phone /\
        sessions w1 = (sessions w ++ [session])%list
    end /\
    conversation_history w1 = conversation_history w /\
    exists w2,
      getOrCreateSession secondId phone w1 = Returned session w2 /\
      sessions w2 = sessions w1.
Proof.
  unfold getOrCreateSession at 1.
  change (getSessionByPhone phone (record (GetOrCreateSession phone) w))
    with (getSessionByPhone phone w).
  destruct (getSessionByPhone phone w) as [existing|] eqn:F.
  - do 2 eexists. split; [reflexivity|].
    assert (Hphone : Model.phoneNumber existing = phone).
    { unfold getSessionByPhone in F. apply find_some in F.
      destruct F as [_ F]. apply String.eqb_eq in F. exact F. }
    split; [exact Hphone|]. split; [exact F|].
    split; [split; reflexivity|]. split; [reflexivity|].
    unfold getOrCreateSession.
    change (getSessionByPhone phone
              (record (GetOrCreateSession phone)
                 (record (GetOrCreateSession phone) w)))
      with (getSessionByPhone phone w).
    rewrite F. eexists. split; reflexivity.
  - assert (Hnew : find (fun s => String.eqb (Model.phoneNumber s) phone)
                     (sessions w ++ [newSession firstId phone])
                   = Some (newSession firstId phone)).
    { apply find_first.
      - apply find_none_Forall. exact F.
      - cbn. apply String.eqb_refl. }
    do 2 eexists. split; [reflexivity|].
    split; [reflexivity|]. split; [exact Hnew|].
    split; [split; reflexivity|]. split; [reflexivity|].
    unfold getOrCreateSession, getSessionByPhone.
    cbn [record sessions]. rewrite Hnew.
    eexists. split; reflexivity.
Qed.

Variables (freshId : string) (md : MessageData) (w : World).

(** What one delivery does to the two tables: rows are only ever appended,
    and a session row is appended only when none was stored under the phone
    number. *)
Lemma processUserMessage_growth :
  exists w1 extraKeys extraRows,
    processUserMessage freshId md w = Returned tt w1 /\
    map sessionKey (sessions w1)
    = (map sessionKey (sessions w) ++ extraKeys)%list /\
    conversation_history w1 = (conversation_history w ++ extraRows)%list /\
    (extraKeys = [] \/
     (getSessionByPhone (phoneOf md) w = None /\
      extraKeys = [(freshId, phoneOf md)])).
Proof.
  unfold processUserMessage, bind, tryCatch.
  destruct (messageId md) as [[|c r]|].
  2: unfold isMessageProcessed, sendErrorMessage, modify;
     eexists _, [], []; rewrite !app_nil_r;
     (split; [reflexivity|]); repeat split; left; reflexivity.
  all: unfold getOrCreateSession, ret; cbv beta iota;
    match goal with
    | |- context [getSessionByPhone ?p ?x] =>
        change (getSessionByPhone p x) with (getSessionByPhone p w)
    end;
    destruct (getSessionByPhone (phoneOf md) w) as [existing|] eqn:Hfind;
    unfold markWebhookMessageProcessed, sendResponse, addToHistory, modify;
    cbv beta iota;
    match goal with
    | |- context [manageConversation ?m ?s ?x] =>
        destruct (manageConversation_effect m s x) as (resp & us & Heq);
        rewrite Heq
    end;
    do 3 eexists; (split; [reflexivity|]);
    cbn [record sessions conversation_history];
    rewrite applyWrites_keys, applyWrites_conversation_history;
    cbn [record sessions conversation_history];
    [ split; [symmetry; apply app_nil_r|];
      split; [first [reflexivity | symmetry; apply app_nil_r]|];
      left; reflexivity
    | split; [rewrite map_app; reflexivity|];
      split; [first [reflexivity | symmetry; apply app_nil_r]|];
      right; split; reflexivity ].
Qed.

End SessionStore.

Section ManyDeliveries.

Lemma NoDup_snoc {A} (l : list A) (x : A) :
  NoDup l -> ~ In x l -> NoDup (l ++ [x]).
Proof.
  induction 1 as [|a l Ha Hl IH]; intros Hx; cbn.
  - constructor; [intros []|constructor].
  - constructor.
    + intros Hin. apply in_app_or in Hin. destruct Hin as [Hin|[Hin|[]]].
      * exact (Ha Hin).
      * apply Hx. left. symmetry. exact Hin.
    + apply IH. intros Hin. apply Hx. right. exact Hin.
Qed.

Lemma phones_keys (w : World) : phones w = map snd (map sessionKey (sessions w)).
Proof. unfold phones. rewrite map_map. reflexivity. Qed.

Lemma getSessionByPhone_none_not_stored (phone : string) (w : World) :
  getSessionByPhone phone w = None -> ~ In phone (phones w).
Proof.
  intros F Hin. unfold phones in Hin. apply in_map_iff in Hin.
  destruct Hin as (s & Hs & Hin).
  apply (find_none _ _ F) in Hin. cbv beta in Hin.
  rewrite Hs, String.eqb_refl in Hin. discriminate.
Qed.

Lemma one_delivery_keeps_phones_distinct (freshId : string) (md : MessageData)
  (w : World) :
  NoDup (phones w) ->
  NoDup (phones (worldOf (processUserMessage freshId md w))).
Proof.
  intros Hnd.
  destruct (processUserMessage_growth freshId md w)
    as (w1 & ek & er & Hrun & Hk & _ & Hcase).
  rewrite Hrun. cbn [worldOf]. rewrite phones_keys, Hk, map_app, <- phones_keys.
  destruct Hcase as [-> | [Hnone ->]]; cbn.
  - rewrite app_nil_r. exact Hnd.
  - apply NoDup_snoc; [exact Hnd|].
    exact (getSessionByPhone_none_not_stored _ _ Hnone).
Qed.

(** If no two stored sessions share a phone number, this is still so after
    any sequence of deliveries, whatever the messages and whatever session
    ids are drawn: deliveries processed one after the other never give a
    phone number a second session. *)
Theorem one_session_per_phone_is_kept (deliveries : list (string * MessageData))
  (w : World) :
  NoDup (phones w) -> NoDup (phones (deliverAll deliveries w)).
Proof.
  revert w. induction deliveries as [|d ds IH]; intros w Hnd; [exact Hnd|].
  cbn [deliverAll fold_left]. apply IH.
  apply one_delivery_keeps_phones_distinct. exact Hnd.
Qed.

Lemma one_session_per_phone_witness :
  NoDup (phones (deliverAll
                   [("sess_1", textData None "hello");
                    ("sess_2", textData None "yoruba please")]
                   emptyWorld)).
Proof.
  apply one_session_per_phone_is_kept. constructor.
Defined.

Lemma delivery_with_id_once (freshId : string) (md : MessageData) (w : World) :
  truthy (messageId md) = true ->
  let w1 := worldOf (processUserMessage freshId md w) in
  stateMachineRuns w1 = stateMachineRuns w /\
  dedupCalls w1 = dedupCalls w + 1 /\
  sessions w1 = sessions w.
Proof.
  intros Ht w1. subst w1.
  destruct (messageId md) as [mid|] eqn:Hid; [|discriminate].
  destruct (processUserMessage_with_id freshId md w mid Hid Ht) as (text & H).
  rewrite H. unfold stateMachineRuns, dedupCalls. cbn [worldOf record trace sessions].
  rewrite !filter_app, !length_app. cbn. repeat split; lia.
Qed.

(** Over any sequence of deliveries, of any messages from any phone numbers
    and in any starting state, the state machine runs once for each delivery
    without a message id and never for a delivery that carries one; each
    delivery that carries one makes one call on the deduplicator (the
    rejected query) and no delivery without one makes any. *)
Theorem state_machine_runs_only_without_message_id
  (deliveries : list (string * MessageData)) (w : World) :
  stateMachineRuns (deliverAll deliveries w)
  = stateMachineRuns w + List.length (filter withoutId deliveries) /\
  dedupCalls (deliverAll deliveries w)
  = dedupCalls w + List.length (filter withId deliveries).
Proof.
  revert w. induction deliveries as [|d ds IH]; intros w.
  - cbn. split; lia.
  - cbn [deliverAll fold_left].
    change (fold_left _ ds ?x) with (deliverAll ds x).
    destruct (IH (worldOf (processUserMessage (fst d) (snd d) w))) as [IHr IHd].
    rewrite IHr, IHd. cbn [filter]. unfold withoutId at 2, withId at 2.
    destruct (truthy (messageId (snd d))) eqn:Ht; cbn [negb List.length].
    + destruct (delivery_with_id_once (fst d) (snd d) w Ht) as (Hr & Hd & _).
      rewrite Hr, Hd. split; lia.
    + destruct (delivery_without_id_once (fst d) (snd d) w Ht) as (Hd & _ & Hr).
      rewrite Hr, Hd. split; lia.
Qed.

End ManyDeliveries.

(** ** Parsing, validation and the route *)

Section ParsingAndRoute.

Lemma phoneFormatOk_length (n : string) :
  phoneFormatOk n = true -> 2 <= String.length n <= 16.
Proof.
  unfold phoneFormatOk. intros H.
  assert (Hbody : forall b, match b with
                            | String c r =>
                                isDigit c && negb (Ascii.eqb c "0")
                                && (1 <=? String.length r)%nat
                                && (String.length r <=? 14)%nat
                                && allDigits r
                            | EmptyString => false
                            end = true -> 2 <= String.length b <= 15).
  { intros [|c r] Hb; [discriminate|].
    repeat (apply andb_true_iff in Hb; destruct Hb as [Hb ?]).
    repeat match goal with
           | H : (_ <=? _)%nat = true |- _ => apply Nat.leb_le in H
           end.
    cbn [String.length]. lia. }
  destruct n as [|c r]; [discriminate|].
  destruct (Ascii.eqb c "+") eqn:E.
  - apply Ascii.eqb_eq in E. subst c.
    apply (Hbody r) in H. cbn [String.length]. lia.
  - assert (Hsame : match String c r with
                    | String "+"%char r0 => r0
                    | _ => String c r
                    end = String c r).
    { destruct c as [[] [] [] [] [] [] [] []]; try reflexivity. discriminate. }
    rewrite Hsame in H. apply (Hbody (String c r)) in H. lia.
Qed.

(** A payload that passes validation always parses, and the parsed data is
    usable: the phone number is present, satisfies the format and is 2 to 16
    characters long, the message type is present, and the message id is the
    id of the payload. *)
Theorem validated_payload_parses_to_usable_data (raw : Payload) :
  isValid (validateWebhookPayload (Some raw)) = true ->
  exists md n,
    parseIncomingMessage (Some raw) = Some md /\
    phoneNumber md = Some n /\
    phoneOf md = n /\
    phoneFormatOk n = true /\
    2 <= String.length n <= 16 /\
    truthy (messageType md) = true /\
    messageId md = payloadId raw.
Proof.
  intros V.
  assert (Hfacts : exists n,
             resolvePhone raw = Some n /\ phoneFormatOk n = true /\
             truthy (orElse (inner raw innerType) (payloadType raw)) = true).
  { revert V. unfold validateWebhookPayload, orElse.
    destruct (truthy (payloadType raw)) eqn:T1;
      destruct (truthy (inner raw innerType)) eqn:T2;
      destruct (resolvePhone raw) as [n|] eqn:P; cbn;
      try destruct n as [|c r]; cbn;
      try destruct (phoneFormatOk (String c r)) eqn:F; cbn;
      intros V; try discriminate;
      eexists; repeat split; eassumption || reflexivity. }
  destruct Hfacts as (n & Hp & Hf & Ht).
  unfold parseIncomingMessage.
  eexists. exists n. split; [reflexivity|].
  assert (Hshape : forall md,
             phoneNumber md = resolvePhone raw ->
             messageType md = orElse (inner raw innerType) (payloadType raw) ->
             messageId md = payloadId raw ->
             phoneNumber md = Some n /\ phoneOf md = n /\
             phoneFormatOk n = true /\ 2 <= String.length n <= 16 /\
             truthy (messageType md) = true /\ messageId md = payloadId raw).
  { intros md H1 H2 H3. unfold phoneOf. rewrite H1, H2, Hp.
    repeat split; try assumption; apply phoneFormatOk_length; assumption. }
  apply Hshape; repeat break_match; reflexivity.
Qed.

Lemma validated_payload_witness :
  exists md n,
    parseIncomingMessage (Some (textPayload (Some "wamid.1") "hello")) = Some md /\
    phoneNumber md = Some n /\ phoneOf md = n /\ phoneFormatOk n = true /\
    2 <= String.length n <= 16 /\ truthy (messageType md) = true /\
    messageId md = Some "wamid.1".
Proof.
  exact (validated_payload_parses_to_usable_data
           (textPayload (Some "wamid.1") "hello") eq_refl).
Defined.

(** The parser marks a message as a button reply exactly when its type is
    button_reply and as a list reply exactly when its type is list_reply,
    never as both; only a button reply carries a button id and only a list
    reply a list id; and a message of any type other than text, the two
    replies, image, document and audio gets the content
    "Unsupported message type". *)
Theorem parsed_reply_flags_follow_the_type (p : option Payload) (md : MessageData) :
  parseIncomingMessage p = Some md ->
  (dataIsButtonReply md = true <-> messageType md = Some "button_reply") /\
  (dataIsListReply md = true <-> messageType md = Some "list_reply") /\
  dataIsButtonReply md && dataIsListReply md = false /\
  (dataIsButtonReply md = false -> dataButtonId md = None) /\
  (dataIsListReply md = false -> dataListId md = None) /\
  (~ In (messageType md)
        [Some "text"; Some "button_reply"; Some "list_reply"; Some "image";
         Some "document"; Some "audio"] ->
   content md = Some "Unsupported message type").
Proof.
  unfold parseIncomingMessage. intros H.
  destruct p as [raw|]; [|discriminate].
  injection H as <-.
  destruct (orElse (inner raw innerType) (payloadType raw)) as [t|] eqn:Ty.
  - assert (Hne : forall x, String.eqb t x = false -> Some t <> Some x).
    { intros x Hx Heq. inversion Heq. subst x.
      rewrite String.eqb_refl in Hx. discriminate. }
    destruct (String.eqb t "text") eqn:E1.
    { apply String.eqb_eq in E1. subst t. cbn.
      repeat split; intros; try discriminate; try reflexivity.
      exfalso. apply H. left. reflexivity. }
    destruct (String.eqb t "button_reply") eqn:E2.
    { apply String.eqb_eq in E2. subst t. cbn.
      repeat split; intros; try discriminate; try reflexivity.
      exfalso. apply H. right. left. reflexivity. }
    destruct (String.eqb t "list_reply") eqn:E3.
    { apply String.eqb_eq in E3. subst t. cbn.
      repeat split; intros; try discriminate; try reflexivity.
      exfalso. apply H. do 2 right. left. reflexivity. }
    apply Hne in E2, E3.
    change ((t =? "image") || ((t =? "document") || ((t =? "audio") || false)))
      with (existsb (String.eqb t) mediaTypes).
    destruct (existsb (String.eqb t) mediaTypes) eqn:E4; cbn.
    + repeat split; intros; try discriminate; try reflexivity;
        try contradiction.
      exfalso. apply H.
      apply existsb_exists in E4. destruct E4 as (x & Hx & Hxt).
      apply String.eqb_eq in Hxt. subst x. cbn in Hx.
      do 3 right. destruct Hx as [<-|[<-|[<-|[]]]]; cbn; tauto.
    + repeat split; intros; try discriminate; try reflexivity;
        try contradiction.
  - cbn. repeat split; intros; try discriminate; reflexivity.
Qed.

Lemma parsed_reply_flags_witness :
  dataIsButtonReply (textData (Some "wamid.1") "hello")
  && dataIsListReply (textData (Some "wamid.1") "hello") = false.
Proof.
  exact (proj1 (proj2 (proj2
           (parsed_reply_flags_follow_the_type
              (Some (textPayload (Some "wamid.1") "hello"))
              (textData (Some "wamid.1") "hello") eq_refl)))).
Defined.

Variables (freshId : string) (w : World).

(** A payload that passes validation is processed to a normal return. *)
Lemma processWebhook_valid_returns (body : option Payload) :
  isValid (validateWebhookPayload body) = true ->
  exists r w1, processWebhook freshId body w = Returned r w1.
Proof.
  intros V. unfold processWebhook, tryCatch. rewrite V. cbn [negb].
  destruct body as [raw|]; [|discriminate]. cbn [parseIncomingMessage].
  destruct (isStatusMessage raw); [do 2 eexists; reflexivity|].
  unfold bind.
  match goal with
  | |- context [processUserMessage ?f ?d ?x] =>
      destruct (processUserMessage_returns f d x) as (w1 & Hrun); rewrite Hrun
  end.
  do 2 eexists. reflexivity.
Qed.

(** The /webhook route answers 500 exactly when the payload fails
    validation (no message type, no phone number, or a malformed phone
    number), and then nothing at all has been done; every other payload is
    answered 200, duplicates included.  A delivery, read, sent, failed or
    enroute receipt that passes validation is answered 200 without a message
    id and without anything being done: no session is loaded or created and
    the state machine does not run. *)
Theorem webhook_route_status_codes (body : option Payload) :
  (noMessageType body \/ noUserKey body \/ badPhoneFormat body ->
   Route.postWebhook freshId body w = Returned Route.Json500 w) /\
  (~ (noMessageType body \/ noUserKey body \/ badPhoneFormat body) ->
   exists mid w1,
     Route.postWebhook freshId body w = Returned (Route.Json200 mid) w1) /\
  (forall raw,
     body = Some raw ->
     isValid (validateWebhookPayload body) = true ->
     isStatusMessage raw = true ->
     Route.postWebhook freshId body w = Returned (Route.Json200 None) w).
Proof.
  split; [|split].
  - intros G. apply validation_fails_iff in G.
    unfold Route.postWebhook, processWebhook, tryCatch, bind.
    rewrite G. reflexivity.
  - intros G.
    assert (V : isValid (validateWebhookPayload body) = true).
    { destruct (isValid (validateWebhookPayload body)) eqn:V; [reflexivity|].
      exfalso. apply G. apply validation_fails_iff. exact V. }
    destruct (processWebhook_valid_returns body V) as (r & w1 & Hrun).
    unfold Route.postWebhook, tryCatch, bind. rewrite Hrun.
    do 2 eexists. reflexivity.
  - intros raw -> V St.
    unfold Route.postWebhook, processWebhook, tryCatch, bind.
    rewrite V. cbn [negb parseIncomingMessage]. rewrite St. reflexivity.
Qed.

End ParsingAndRoute.

(** ** The AI chat conversation *)

Section AiConversation.

Import AiService.

(** Simplification that leaves the language detector and the text helpers
    folded. *)
Ltac chat_simpl :=
  cbn -[Language.detectLanguage wantsDoctor trim Nat.min Nat.leb Nat.mul].

(** One turn of the AI chat moves the stage forward by at most one step and
    never backwards.  The stage stays where it is only in
    SYMPTOM_CLARIFICATION when no symptom had been recorded before, in
    DOCTOR_CONFIRMATION when the message contains none of the agreement
    words, and in FORM_MODAL, which is final.  The form is to be shown
    exactly when the new stage is FORM_MODAL, and every turn appends the user
    message and the reply to the history and sets the language to the one
    detected in the message. *)
Theorem chat_turn_advances_at_most_one_stage (userMessage aiResponse : string)
  (state : ConversationState) :
  let result := processConversation userMessage aiResponse state in
  let after := newState result in
  stageRank (stage state) <= stageRank (stage after) <= stageRank (stage state) + 1 /\
  (stage after = stage state <->
   (stage state = SYMPTOM_CLARIFICATION /\ symptoms state = []) \/
   (stage state = DOCTOR_CONFIRMATION /\ wantsDoctor userMessage = false) \/
   stage state = FORM_MODAL) /\
  (shouldShowModal result = true <-> stage after = FORM_MODAL) /\
  conversationHistory after
  = (conversationHistory state
     ++ [(user, userMessage); (assistant, aiResponse)])%list /\
  language after = detectLanguage userMessage.
Proof.
  cbv zeta. unfold processConversation, updateConversationState.
  chat_simpl.
  destruct (stage state) eqn:St; chat_simpl.
  1-4,6: repeat split; intros; try discriminate; try lia;
    try (intuition discriminate).
  - (* SYMPTOM_CLARIFICATION *)
    rewrite length_app. chat_simpl.
    destruct (symptoms state) as [|x xs] eqn:Sy; chat_simpl.
    + repeat split; intros; try discriminate; try lia; auto.
    + replace (2 <=? S (List.length xs + 1))%nat with true
        by (symmetry; apply Nat.leb_le; lia).
      chat_simpl. repeat split; intros; try discriminate; try lia.
      intuition discriminate.
  - (* DOCTOR_CONFIRMATION *)
    destruct (wantsDoctor userMessage); chat_simpl; rewrite ?St; chat_simpl;
      repeat split; intros; try discriminate; try lia; auto;
      intuition discriminate.
  - (* FORM_MODAL *)
    rewrite ?St. chat_simpl.
    repeat split; intros; try discriminate; try lia; auto.
Qed.

Lemma converse_snoc (turns : list (string * string)) (turn : string * string)
  (state : ConversationState) :
  converse (turns ++ [turn]) state
  = newState (processConversation (fst turn) (snd turn) (converse turns state)).
Proof. unfold converse. rewrite fold_left_app. reflexivity. Qed.

(** In every conversation started from the initial state, whatever the user
    writes and whatever the model answers: after k turns, for k up to 6, the
    stage is the k-th one (six turns always reach DOCTOR_CONFIRMATION) and
    later it is DOCTOR_CONFIRMATION or FORM_MODAL; the number of recorded
    symptoms is 0 up to SYMPTOM_INQUIRY, 1 in SYMPTOM_CLARIFICATION and 2
    from DIAGNOSIS on, so the clarification stage never repeats; the name is
    known from PHONE_COLLECTION on and the phone number from SYMPTOM_INQUIRY
    on; and the history holds two entries per turn. *)
Theorem chat_conversation_invariant (startLanguage : string)
  (turns : list (string * string)) :
  let state := converse turns (initializeConversationState startLanguage) in
  let k := List.length turns in
  (stageRank (stage state) = Nat.min k 6 \/
   (6 < k /\ stage state = FORM_MODAL)) /\
  List.length (symptoms state) = Nat.min 2 (stageRank (stage state) - 3) /\
  (patientName state <> None <-> 2 <= stageRank (stage state)) /\
  (phoneNumber state <> None <-> 3 <= stageRank (stage state)) /\
  List.length (conversationHistory state) = 2 * k.
Proof.
  cbv zeta.
  induction turns as [|turn turns' IH] using rev_ind.
  - chat_simpl. repeat split; intros; try lia; try congruence.
  - rewrite converse_snoc, length_app.
    set (st := converse turns' (initializeConversationState startLanguage)) in *.
    destruct IH as (Hst & Hsy & Hn & Hp & Hh).
    unfold processConversation, updateConversationState.
    chat_simpl.
    destruct (stage st) eqn:St; chat_simpl;
      cbn -[Nat.min] in Hst, Hsy, Hn, Hp;
      destruct Hst as [Hst|[Hk Hst]]; try discriminate.
    all: try (destruct (wantsDoctor (fst turn)); chat_simpl; rewrite ?St;
              chat_simpl).
    all: try (rewrite length_app; chat_simpl;
              replace (2 <=? List.length (symptoms st) + 1)%nat with true
                by (symmetry; apply Nat.leb_le; lia);
              chat_simpl).
    all: rewrite ?St; chat_simpl; rewrite ?length_app; chat_simpl.
    all: split; [first [left; lia | right; split; [lia|reflexivity]]|].
    all: repeat split; intros; try lia; try congruence; try tauto.
    all: try (apply Hn; lia); try (apply Hp; lia).
    all: match goal with
         | H : patientName _ <> None |- _ => apply Hn in H; lia
         | H : phoneNumber _ <> None |- _ => apply Hp in H; lia
         end.
Qed.

(** The first five turns of a chat, whatever is written and answered, end in
    DIAGNOSIS with the second message, trimmed, as patient name, the third
    message, trimmed, as phone number, the fourth and fifth messages as the
    two symptoms, the language detected in the fifth message, and all ten
    utterances in the history in the order they were made. *)
Theorem five_turns_reach_diagnosis (startLanguage : string)
  (m1 r1 m2 r2 m3 r3 m4 r4 m5 r5 : string) :
  converse [(m1, r1); (m2, r2); (m3, r3); (m4, r4); (m5, r5)]
           (initializeConversationState startLanguage)
  = {| stage := DIAGNOSIS;
       patientName := Some (trim m2);
       phoneNumber := Some (trim m3);
       symptoms := [m4; m5];
       conversationHistory :=
         [ (user, m1); (assistant, r1); (user, m2); (assistant, r2);
           (user, m3); (assistant, r3); (user, m4); (assistant, r4);
           (user, m5); (assistant, r5) ];
       language := detectLanguage m5;
       possibleAilments := None |}.
Proof. reflexivity. Qed.

End AiConversation.

(** ** The further properties on concrete inputs *)

Section FurtherExamples.

Lemma demographics_merged_witness :
  let s := sessionAt COLLECTING_DEMOGRAPHICS "en" in
  let m := textMessage "I am 25 years old, male" in
  stageAfter m s (worldWith s) = COLLECTING_SYMPTOMS /\
  option_map userData (getSession (id s) (worldOf (manageConversation m s (worldWith s))))
  = Some (spreadDemographics (userData s)
            (extractDemographics "I am 25 years old, male")).
Proof.
  exact (demographics_merged_and_stage_advanced
           (textMessage "I am 25 years old, male")
           (sessionAt COLLECTING_DEMOGRAPHICS "en")
           (worldWith (sessionAt COLLECTING_DEMOGRAPHICS "en")) eq_refl
           "I am 25 years old, male"
           (conj eq_refl (conj eq_refl eq_refl)) eq_refl).
Defined.

Lemma language_chosen_witness :
  let s := sessionAt LANGUAGE_SELECTION "en" in
  let m := textMessage "Yoruba please" in
  exists code,
    stageAfter m s (worldWith s) = COLLECTING_DEMOGRAPHICS /\
    option_map preferredLanguage (rowAfter m s (worldWith s)) = Some code /\
    In code ["en"; "pcm"; "yo"; "ha"; "ig"].
Proof.
  destruct (language_chosen_by_first_name_in_text
              (textMessage "Yoruba please")
              (sessionAt LANGUAGE_SELECTION "en")
              (worldWith (sessionAt LANGUAGE_SELECTION "en")) eq_refl
              "Yoruba please" (conj eq_refl (conj eq_refl eq_refl)) eq_refl)
    as (code & H1 & H2 & H3 & _).
  exists code. split; [exact H1|]. split; [exact H2|exact H3].
Defined.

Lemma message_without_text_witness :
  let s := sessionAt COLLECTING_DEMOGRAPHICS "yo" in
  let m := {| original := None; msgPhoneNumber := "2348012345678";
              msgType := Some "text"; isButtonReply := false;
              isListReply := false; buttonId := None; listId := None |} in
  manageConversation m s (worldWith s)
  = Returned (TextResponse (Localized "demographics_clarification" "yo"))
             (record (ManageConversation m s) (worldWith s)).
Proof.
  exact (message_without_text_changes_nothing
           {| original := None; msgPhoneNumber := "2348012345678";
              msgType := Some "text"; isButtonReply := false;
              isListReply := false; buttonId := None; listId := None |}
           (sessionAt COLLECTING_DEMOGRAPHICS "yo")
           (worldWith (sessionAt COLLECTING_DEMOGRAPHICS "yo"))
           (conj eq_refl eq_refl) eq_refl).
Defined.

Lemma late_stages_witness :
  let s := sessionAt APPOINTMENT_BOOKING "ha" in
  let m := textMessage "tomorrow morning" in
  stageAfter m s (worldWith s) = COMPLETED /\
  replyOf m s (worldWith s)
  = Some (TextResponse (Localized "appointment_booked" "ha")).
Proof.
  exact (late_stages_ignore_message_text
           (textMessage "tomorrow morning") (sessionAt APPOINTMENT_BOOKING "ha")
           (worldWith (sessionAt APPOINTMENT_BOOKING "ha")) eq_refl
           (conj eq_refl eq_refl)).
Defined.


Lemma language_reply_witness :
  let s := sessionAt COLLECTING_SYMPTOMS "en" in
  let m := buttonReply "lang_fr" in
  stageAfter m s (worldWith s) = COLLECTING_DEMOGRAPHICS /\
  option_map preferredLanguage (rowAfter m s (worldWith s)) = Some "fr" /\
  replyOf m s (worldWith s)
  = Some (TextResponse (Localized "demographics_prompt" "fr")).
Proof.
  exact (language_reply_stores_suffix_unchecked
           (sessionAt COLLECTING_SYMPTOMS "en")
           (worldWith (sessionAt COLLECTING_SYMPTOMS "en")) eq_refl
           (buttonReply "lang_fr") "fr" eq_refl eq_refl ltac:(cbn; lia)).
Defined.

Lemma language_buttons_witness :
  let s := sessionAt LANGUAGE_SELECTION "en" in
  exists code kws,
    "lang_ig" = "lang_" ++ code /\
    keywordsProperty code = Own kws /\
    option_map preferredLanguage (rowAfter (buttonReply "lang_ig") s (worldWith s))
    = Some code /\
    option_map preferredLanguage (rowAfter (textMessage "Igbo") s (worldWith s))
    = Some code.
Proof.
  apply (language_buttons_agree_with_typed_names
           (sessionAt LANGUAGE_SELECTION "en")
           (worldWith (sessionAt LANGUAGE_SELECTION "en")) eq_refl
           "lang_ig" "Igbo" (buttonReply "lang_ig") (textMessage "Igbo")).
  - do 4 right. left. reflexivity.
  - reflexivity.
  - reflexivity.
  - repeat split.
  - reflexivity.
Defined.

Lemma provider_reply_witness :
  let s := sessionAt PROVIDER_MATCHING "en" in
  let m := listReply "provider_2" in
  stageAfter m s (worldWith s) = APPOINTMENT_BOOKING /\
  rowAfter m s (worldWith s) = Some (sessionAt APPOINTMENT_BOOKING "en").
Proof.
  destruct (provider_reply_selects_that_provider
              (sessionAt PROVIDER_MATCHING "en")
              (worldWith (sessionAt PROVIDER_MATCHING "en")) eq_refl
              (listReply "provider_2") "2" eq_refl eq_refl) as (H1 & H2 & _).
  split; [exact H1|exact H2].
Defined.

Lemma provider_rows_witness :
  let s := sessionAt PROVIDER_MATCHING "en" in
  let m := listReply "provider_3" in
  stageAfter m s (worldWith s) = APPOINTMENT_BOOKING.
Proof.
  destruct (provider_rows_lead_to_their_provider
              (sessionAt PROVIDER_MATCHING "en")
              (worldWith (sessionAt PROVIDER_MATCHING "en")) eq_refl
              findMockProviders
              {| rowId := "provider_3"; rowTitle := "Lagos Medical Center";
                 rowProvider :=
                   {| providerId := "3"; providerName := "Lagos Medical Center";
                      specialty := "Multi-specialty"; distance := Some "5.1km";
                      location := None; rating := "4.6" |} |}
              (listReply "provider_3")
              (or_intror (or_intror (or_introl eq_refl))) eq_refl eq_refl)
    as (_ & H & _).
  exact H.
Defined.

Lemma booking_buttons_witness :
  let s := sessionAt APPOINTMENT_BOOKING "en" in
  manageConversation (buttonReply "call_provider") s (worldWith s)
  = Returned (TextResponse (Literal unknownSelectionText))
             (record (ManageConversation (buttonReply "call_provider") s)
                     (worldWith s)).
Proof.
  apply (booking_buttons_are_not_handled
           (sessionAt PROVIDER_MATCHING "en")
           (worldWith (sessionAt PROVIDER_MATCHING "en"))
           (listReply "provider_1") (buttonReply "call_provider")
           "call_provider" "📞 Call Provider"
           (ProviderInfo
              {| providerId := "1"; providerName := "Dr. John Doe";
                 specialty := "General Practitioner"; distance := None;
                 location := Some "Victoria Island, Lagos"; rating := "4.8" |}
              "en")
           [ ("book_now", "📅 Book Now");
             ("call_provider", "📞 Call Provider");
             ("get_directions", "🗺️ Get Directions") ]).
  - reflexivity.
  - right. left. reflexivity.
  - reflexivity.
  - reflexivity.
Defined.

Lemma inherited_language_witness :
  let s := sessionAt COLLECTING_SYMPTOMS "toString" in
  let m := textMessage "I have a headache and a fever" in
  manageConversation m s (worldWith s)
  = Returned (TextResponse (Localized "symptom_collection_error" "toString"))
             (record (ManageConversation m s) (worldWith s)).
Proof.
  apply (inherited_language_blocks_symptom_collection
           (textMessage "I have a headache and a fever")
           (sessionAt COLLECTING_SYMPTOMS "toString")
           (worldWith (sessionAt COLLECTING_SYMPTOMS "toString"))).
  - right. left. reflexivity.
  - reflexivity.
  - split; reflexivity.
Defined.

End FurtherExamples.
